(** * VantagePoint metadata cache: a shallow embedding of [main.py]

    The service is a set of HTTP handlers over two in-memory seed lists and
    a process-wide TTL cache.  The embedding follows the source:

    - the module-level dictionary [_cache] is a [gmap string (Time * pyobj)];
    - [time.time()] reads an external clock; every call may observe a new
      value, so the world carries a clock oracle and the number of reads
      performed so far.  A reading is a binary64 number ([Time]); the one
      float operation that decides control flow, the subtraction in
      [cache_get], is the IEEE one: the exact difference rounded to the
      nearest binary64 number, ties to even ([PyFloat.round_double]).
      The timestamps that handlers put into their answers are kept as
      exact values;
    - the global generator of the [random] module is a parameter of the
      development (class [RandomGen]);
    - handlers are computations in a small state monad over the world.

    Strings are byte strings holding UTF-8.  [str.upper] and [str.lower]
    convert the ASCII letters and the characters outside ASCII whose
    converted form is made of ASCII letters ([PyStr.upper], [PyStr.lower]). *)

From Stdlib Require Import ZArith QArith Qround Qabs Lqa Lia List Bool Ascii.
From Stdlib Require Import String.
From Stdlib Require Import Sorted Permutation.
From stdpp Require Import base option gmap strings pretty list.

Import ListNotations.
Local Open Scope string_scope.
Local Open Scope Z_scope.

(* ------------------------------------------------------------------ *)
(** ** Python strings *)

Module PyStr.

Definition is_upper (c : ascii) : bool :=
  let n := N_of_ascii c in ((65 <=? n) && (n <=? 90))%N.

Definition is_lower (c : ascii) : bool :=
  let n := N_of_ascii c in ((97 <=? n) && (n <=? 122))%N.

Definition upper_char (c : ascii) : ascii :=
  if is_lower c then ascii_of_N (N_of_ascii c - 32) else c.

Definition lower_char (c : ascii) : ascii :=
  if is_upper c then ascii_of_N (N_of_ascii c + 32) else c.

(** The characters outside ASCII whose upper-case form in the Unicode
    tables of [str.upper] is made of ASCII letters, by their UTF-8 bytes:
    U+00DF (sharp s), U+0131 (dotless i), U+017F (long s) and the Latin
    ligatures U+FB00 to U+FB06. *)
Definition upper_two (c1 c2 : ascii) : option string :=
  match N_of_ascii c1, N_of_ascii c2 with
  | 195, 159 => Some "SS"
  | 196, 177 => Some "I"
  | 197, 191 => Some "S"
  | _, _ => None
  end%N.

Definition upper_three (c1 c2 c3 : ascii) : option string :=
  match N_of_ascii c1, N_of_ascii c2, N_of_ascii c3 with
  | 239, 172, 128 => Some "FF"
  | 239, 172, 129 => Some "FI"
  | 239, 172, 130 => Some "FL"
  | 239, 172, 131 => Some "FFI"
  | 239, 172, 132 => Some "FFL"
  | 239, 172, 133 => Some "ST"
  | 239, 172, 134 => Some "ST"
  | _, _, _ => None
  end%N.

(** The one character outside ASCII whose lower-case form is an ASCII
    letter: U+212A (Kelvin sign). *)
Definition lower_three (c1 c2 c3 : ascii) : option string :=
  match N_of_ascii c1, N_of_ascii c2, N_of_ascii c3 with
  | 226, 132, 170 => Some "k"
  | _, _, _ => None
  end%N.

(** [s.upper()].  Any other character outside ASCII is kept as it is: its
    upper-case form has a character outside ASCII, as the character itself
    has, so it compares and searches against ASCII text the same way. *)
Fixpoint upper (s : string) : string :=
  match s with
  | EmptyString => EmptyString
  | String c1 s1 =>
      let plain := String (upper_char c1) (upper s1) in
      match s1 with
      | EmptyString => plain
      | String c2 s2 =>
          match upper_two c1 c2 with
          | Some out => out +:+ upper s2
          | None =>
              match s2 with
              | EmptyString => plain
              | String c3 s3 =>
                  match upper_three c1 c2 c3 with
                  | Some out => out +:+ upper s3
                  | None => plain
                  end
              end
          end
      end
  end.

(** [s.lower()], with the same convention *)
Fixpoint lower (s : string) : string :=
  match s with
  | EmptyString => EmptyString
  | String c1 s1 =>
      let plain := String (lower_char c1) (lower s1) in
      match s1 with
      | String c2 (String c3 s3) =>
          match lower_three c1 c2 c3 with
          | Some out => out +:+ lower s3
          | None => plain
          end
      | _ => plain
      end
  end.

(** [q in s]: [q] occurs in [s] as a contiguous substring *)
Fixpoint contains (q s : string) : bool :=
  String.prefix q s ||
  match s with
  | EmptyString => false
  | String _ s' => contains q s'
  end.

(** truth value of a string: only the empty string is false *)
Definition truthy (s : string) : bool :=
  match s with EmptyString => false | _ => true end.

(** truth value of an [Optional[str]]: [None] and [""] are false *)
Definition truthy_opt (o : option string) : bool :=
  match o with None => false | Some s => truthy s end.

(** [f"{o}"] for an [Optional[str]]: [None] prints as the word None *)
Definition format_opt (o : option string) : string :=
  match o with None => "None" | Some s => s end.

Definition has_char (c : ascii) (s : string) : bool :=
  contains (String c EmptyString) s.

Definition squote : ascii := "'"%char.
Definition dquote : ascii := ascii_of_N 34.
Definition backslash : ascii := "\"%char.

(** one character of [repr(s)] with quote character [quote]; characters
    outside printable ASCII other than newline, carriage return and tab
    are left as they are (no seed tag contains any) *)
Definition escape_char (quote c : ascii) : string :=
  if Ascii.eqb c backslash then String backslash (String backslash EmptyString)
  else if Ascii.eqb c quote then String backslash (String quote EmptyString)
  else if Ascii.eqb c (ascii_of_N 10) then String backslash "n"
  else if Ascii.eqb c (ascii_of_N 13) then String backslash "r"
  else if Ascii.eqb c (ascii_of_N 9) then String backslash "t"
  else String c EmptyString.

Fixpoint escape (quote : ascii) (s : string) : string :=
  match s with
  | EmptyString => EmptyString
  | String c s' => escape_char quote c +:+ escape quote s'
  end.

(** [repr(s)]: single quotes, unless the string has a single quote and
    no double quote *)
Definition repr (s : string) : string :=
  let quote := if has_char squote s && negb (has_char dquote s)
               then dquote else squote in
  String quote (escape quote s +:+ String quote EmptyString).

(** [str(l)] for a list of strings: [['a', 'b']] *)
Definition str_list (l : list string) : string :=
  "[" +:+ String.concat ", " (List.map repr l) +:+ "]".

End PyStr.

(* ------------------------------------------------------------------ *)
(** ** Python lists: slicing *)

(** [l[start:stop]] with Python's clamping of the two bounds *)
Definition clamp_index (n i : Z) : Z :=
  if i <? 0 then Z.max (i + n) 0 else Z.min i n.

Definition py_slice {A : Type} (l : list A) (start stop : Z) : list A :=
  let n := Z.of_nat (length l) in
  let lo := clamp_index n start in
  let hi := clamp_index n stop in
  firstn (Z.to_nat (hi - lo)) (skipn (Z.to_nat lo) l).

(** [range(n)] and [range(n, 0, -1)] *)
Definition py_range (n : Z) : list Z :=
  List.map Z.of_nat (seq 0 (Z.to_nat n)).

Definition py_range_down (n : Z) : list Z :=
  List.map (fun k => n - Z.of_nat k) (seq 0 (Z.to_nat n)).

(* ------------------------------------------------------------------ *)
(** ** [list.sort(key=..., reverse=True)]

    Python's sort is stable, also with [reverse=True]: the result is in
    descending key order and elements with equal keys keep their original
    relative order.  A stable sort is determined by that contract; it is
    modelled here by insertion from the right. *)

Section Sort.
Context {A : Type} (key : A -> Q).

Fixpoint insert_desc (x : A) (l : list A) : list A :=
  match l with
  | [] => [x]
  | y :: l' =>
      if Qle_bool (key y) (key x) then x :: y :: l'
      else y :: insert_desc x l'
  end.

Fixpoint sort_desc (l : list A) : list A :=
  match l with
  | [] => []
  | x :: l' => insert_desc x (sort_desc l')
  end.
End Sort.

(* ------------------------------------------------------------------ *)
(** ** Configuration (read from the environment when the module loads) *)

Record Config := {
  CHAIN_RPC_URL : string;
  CONTRACT_ADDRESS : string;
  SUBGRAPH_URL : string;
  IPFS_GATEWAY : string;
  REDIS_URL : string;
  CACHE_TTL_SECONDS : Z
}.

(** the defaults of the [os.getenv] calls *)
Definition default_config : Config := {|
  CHAIN_RPC_URL := "https://mainnet.base.org";
  CONTRACT_ADDRESS := "0xYourContractAddress";
  SUBGRAPH_URL := "https://api.thegraph.com/subgraphs/name/vantagepoint/markets";
  IPFS_GATEWAY := "https://cloudflare-ipfs.com/ipfs/";
  REDIS_URL := "redis://localhost:6379";
  CACHE_TTL_SECONDS := 60
|}.

(* ------------------------------------------------------------------ *)
(** ** Data model *)

(** an entry of [MOCK_MARKETS]: a dictionary with exactly these keys *)
Record Market := {
  market_id : Z;
  question : string;
  description : string;
  category : string;
  image_url : string;
  tags : list string;
  source_url : string;
  resolution_rules : string;
  yes_price_bps : Z;
  no_price_bps : Z;
  total_volume_usd : Q;
  volume_24h_usd : Q;
  total_liquidity : Q;
  num_traders : Z
}.

Record MarketSearchResult := {
  markets : list Market;
  total_count : Z;
  page : Z;
  page_size : Z
}.

Record CreateMarketRequest := {
  req_question : string;
  req_description : string;
  req_category : string;
  req_image_ipfs_hash : option string;
  req_image_url : option string;
  req_tags : list string;
  req_source_url : option string;
  req_resolution_rules : string
}.

(** the dictionary [new_meta] of [create_market_metadata] *)
Record PendingMeta := {
  meta_metadata_id : string;
  meta_question : string;
  meta_description : string;
  meta_category : string;
  meta_image_url : string;
  meta_tags : list string;
  meta_source_url : option string;
  meta_resolution_rules : string;
  meta_created_at : Q
}.

(** an element of the list built by [get_market_trades] *)
Record Trade := {
  trade_market_id : Z;
  trader : string;
  is_buy_yes : bool;
  usdc_in : Q;
  shares_out : Q;
  price_bps : Z;
  tx_hash : string;
  timestamp : Q
}.

(** an element of [candles] in [get_price_history] *)
Record Candle := {
  time : Z;
  open : Z;
  high : Z;
  low : Z;
  close : Z;
  volume : Q
}.

Record PriceHistory := {
  ph_market_id : Z;
  ph_interval : string;
  candles : list Candle
}.

(** The Python objects that are stored in, and read back from, the cache. *)
Inductive pyobj :=
| PNone
| PBool (b : bool)
| PInt (z : Z)
| PStr (s : string)
| PMarket (m : Market)
| PMarkets (l : list Market)
| PSearchResult (r : MarketSearchResult)
| PMeta (m : PendingMeta).

(** truth value of an object, as tested by [if cached:] and [if not market:];
    a market dictionary has keys, and a model object has no [__bool__] or
    [__len__], so both are true *)
Definition truthy (v : pyobj) : bool :=
  match v with
  | PNone => false
  | PBool b => b
  | PInt z => negb (z =? 0)
  | PStr s => PyStr.truthy s
  | PMarket _ => true
  | PMarkets l => match l with [] => false | _ => true end
  | PSearchResult _ => true
  | PMeta _ => true
  end.

(* ------------------------------------------------------------------ *)
(** ** Seed data *)

Definition market_1 : Market := {|
  market_id := 1;
  question := "Will the Fed cut rates by 50bps before June 2025?";
  description := "Resolves YES if the Federal Reserve announces a 50 basis point or greater rate cut before June 30, 2025. Resolution source: Fed official press releases.";
  category := "POLITICS";
  image_url := "https://images.unsplash.com/photo-1611974789855-9c2a0a7236a3?w=400";
  tags := ["fed"; "rates"; "macro"; "finance"];
  source_url := "https://federalreserve.gov";
  resolution_rules := "Resolves YES if FOMC minutes confirm ≥50bps cut before June 30 2025.";
  yes_price_bps := 6840;
  no_price_bps := 3160;
  total_volume_usd := 2450000;
  volume_24h_usd := 185000;
  total_liquidity := 890000;
  num_traders := 1247
|}.

Definition market_2 : Market := {|
  market_id := 2;
  question := "Will Bitcoin exceed $150K before end of 2025?";
  description := "Resolves YES if BTC/USD spot price on Coinbase Pro crosses $150,000 at any point before Dec 31, 2025 23:59 UTC.";
  category := "CRYPTO";
  image_url := "https://images.unsplash.com/photo-1518546305927-5a555bb7020d?w=400";
  tags := ["bitcoin"; "btc"; "crypto"; "price"];
  source_url := "https://coinbase.com";
  resolution_rules := "Resolves YES if BTC/USD on Coinbase Pro >= $150,000 before EOY 2025.";
  yes_price_bps := 4230;
  no_price_bps := 5770;
  total_volume_usd := 8920000;
  volume_24h_usd := 720000;
  total_liquidity := 3100000;
  num_traders := 5832
|}.

Definition market_3 : Market := {|
  market_id := 3;
  question := "Will the Kansas City Chiefs win Super Bowl LX?";
  description := "Resolves YES if the Kansas City Chiefs win Super Bowl LX (Feb 2026). Resolution: official NFL result.";
  category := "SPORTS";
  image_url := "https://images.unsplash.com/photo-1566577739112-5180d4bf9390?w=400";
  tags := ["nfl"; "superbowl"; "chiefs"; "sports"];
  source_url := "https://nfl.com";
  resolution_rules := "Resolves YES if KC Chiefs are Super Bowl LX champions.";
  yes_price_bps := 3100;
  no_price_bps := 6900;
  total_volume_usd := 1230000;
  volume_24h_usd := 95000;
  total_liquidity := 450000;
  num_traders := 892
|}.

Definition market_4 : Market := {|
  market_id := 4;
  question := "Will GPT-5 be released before Claude 4?";
  description := "Resolves YES if OpenAI officially releases GPT-5 to the public before Anthropic releases Claude 4 (successor to Claude 3). Based on official announcements.";
  category := "CULTURE";
  image_url := "https://images.unsplash.com/photo-1677442135703-1787eea5ce01?w=400";
  tags := ["ai"; "openai"; "anthropic"; "llm"];
  source_url := "https://openai.com";
  resolution_rules := "Resolves YES if GPT-5 public release precedes Claude 4 public release.";
  yes_price_bps := 5500;
  no_price_bps := 4500;
  total_volume_usd := 680000;
  volume_24h_usd := 48000;
  total_liquidity := 220000;
  num_traders := 418
|}.

Definition MOCK_MARKETS : list Market :=
  [market_1; market_2; market_3; market_4].

(* ------------------------------------------------------------------ *)
(** ** The [random] module

    The handlers use the module-level generator through [random.seed],
    [random.randint] and [random.uniform].  The generator itself is library
    code; the development is parametric in it. *)

Class RandomGen := {
  rng_state : Type;
  rng_seed : Z -> rng_state;
  rng_randint : Z -> Z -> rng_state -> Z * rng_state;
  rng_uniform : Q -> Q -> rng_state -> Q * rng_state
}.

(** the documented ranges: [randint(a, b)] lies in [[a, b]] and
    [uniform(a, b)] between [a] and [b] *)
Class RandomGenRanges (G : RandomGen) : Prop := {
  randint_range : forall a b s, a <= b ->
    a <= fst (rng_randint a b s) <= b;
  uniform_range : forall a b s, (a <= b)%Q ->
    (a <= fst (rng_uniform a b s) <= b)%Q
}.

(** A small linear congruential generator, to run the handlers on. *)
Definition lcg_next (s : Z) : Z := (s * 1103515245 + 12345) mod 2147483648.

Definition lcg_gen : RandomGen := {|
  rng_state := Z;
  rng_seed := fun z => z mod 2147483648;
  rng_randint := fun a b s =>
    let s' := lcg_next s in (a + s' mod (b - a + 1), s');
  rng_uniform := fun a b s =>
    let s' := lcg_next s in
    ((a + (b - a) * (s' # 2147483648))%Q, s')
|}.

(* ------------------------------------------------------------------ *)
(** ** Python floats *)

Module PyFloat.

(** [x * 2^e] *)
Definition scale (x : Q) (e : Z) : Q :=
  if 0 <=? e then (x * inject_Z (2 ^ e))%Q else (x / inject_Z (2 ^ (- e)))%Q.

(** the integer nearest to [x], the even one of the two at a tie *)
Definition round_half_even (x : Q) : Z :=
  let f := Qfloor x in
  match (x - inject_Z f ?= 1 # 2)%Q with
  | Lt => f
  | Gt => f + 1
  | Eq => if Z.even f then f else f + 1
  end.

(** [floor (log2 |x|)] for a nonzero [x]: one of the two candidates that
    the bit lengths of numerator and denominator leave *)
Definition log2_floor (x : Q) : Z :=
  let k := Z.log2 (Z.abs (Qnum x)) - Z.log2 (Zpos (Qden x)) in
  if Qle_bool (scale 1 k) (Qabs x) then k else k - 1.

(** the exponent of the last place of the binary64 numbers around [x]:
    53 significant bits, and no exponent below that of the subnormals *)
Definition ulp_exponent (x : Q) : Z := Z.max (-1074) (log2_floor x - 52).

(** the binary64 number nearest to [x], ties to even: the result of one
    IEEE operation whose exact result is [x] (below [2^1024] in absolute
    value, where nothing overflows) *)
Definition round_double (x : Q) : Q :=
  let e := ulp_exponent x in
  scale (inject_Z (round_half_even (scale x (- e)))) e.

End PyFloat.

(** A reading of [time.time()]: a binary64 number of seconds.  CPython
    keeps the system clock as a signed 64-bit count of nanoseconds, so a
    reading is below [2^34] seconds in absolute value. *)
Definition is_time (q : Q) : bool :=
  Qeq_bool (PyFloat.round_double q) q
  && Qle_bool (- inject_Z (2 ^ 34)) q && Qle_bool q (inject_Z (2 ^ 34)).

Record Time := {
  seconds :> Q;
  seconds_is_time : is_time seconds = true
}.

Definition epoch : Time := {| seconds := 0; seconds_is_time := eq_refl |}.

(** the reading with value [q]; a value that is no reading gives [epoch] *)
Definition as_time (q : Q) : Time :=
  match is_time q as b return is_time q = b -> Time with
  | true => fun H => {| seconds := q; seconds_is_time := H |}
  | false => fun _ => epoch
  end eq_refl.

(** [a - b] on two readings, as the float subtraction computes it *)
Definition float_sub (a b : Time) : Q := PyFloat.round_double (a - b).

Arguments PyFloat.round_double : simpl never.
Arguments as_time : simpl never.
Arguments float_sub : simpl never.

(* ------------------------------------------------------------------ *)
(** ** The world and the handler monad *)

Section Monad.
Context {G : RandomGen}.

(** [_cache], the wall clock and the generator of [random].  [wall n] is
    what the [n]-th call of [time.time()] returns. *)
Record World := {
  cache : gmap string (Time * pyobj);
  wall : nat -> Time;
  ticks : nat;
  rng : rng_state
}.

Definition M (A : Type) : Type := World -> A * World.

Definition ret {A} (a : A) : M A := fun w => (a, w).

Definition bind {A B} (m : M A) (k : A -> M B) : M B :=
  fun w => let (a, w') := m w in k a w'.

(** [time.time()] *)
Definition time_time : M Time :=
  fun w => (wall w (ticks w),
            {| cache := cache w; wall := wall w;
               ticks := S (ticks w); rng := rng w |}).

(** [int(x)] of a float: truncation towards zero *)
Definition int_of_float (x : Q) : Z := Z.quot (Qnum x) (Zpos (Qden x)).

Definition read_cache : M (gmap string (Time * pyobj)) :=
  fun w => (cache w, w).

Definition write_cache (c : gmap string (Time * pyobj)) : M unit :=
  fun w => (tt, {| cache := c; wall := wall w;
                   ticks := ticks w; rng := rng w |}).

Definition random_seed (a : Z) : M unit :=
  fun w => (tt, {| cache := cache w; wall := wall w;
                   ticks := ticks w; rng := rng_seed a |}).

Definition random_randint (a b : Z) : M Z :=
  fun w => let (x, s) := rng_randint a b (rng w) in
           (x, {| cache := cache w; wall := wall w;
                  ticks := ticks w; rng := s |}).

Definition random_uniform (a b : Q) : M Q :=
  fun w => let (x, s) := rng_uniform a b (rng w) in
           (x, {| cache := cache w; wall := wall w;
                  ticks := ticks w; rng := s |}).

End Monad.

Notation "'do' x <- m ; k" := (bind m (fun x => k))
  (at level 10, x name, m at level 100, k at level 200,
   format "'[v' 'do'  x  <-  m ; '/' k ']'").
Notation "'exec' m ; k" := (bind m (fun _ => k))
  (at level 10, m at level 100, k at level 200,
   format "'[v' 'exec'  m ; '/' k ']'").

Definition Qlt_bool (x y : Q) : bool := negb (Qle_bool y x).

Section Service.
Context (cfg : Config) {G : RandomGen}.

Fixpoint mapM {A B} (f : A -> M B) (l : list A) : M (list B) :=
  match l with
  | [] => ret []
  | x :: l' => do y <- f x; do ys <- mapM f l'; ret (y :: ys)
  end.

(* ------------------------------------------------------------------ *)
(** ** In-memory cache *)

Definition cache_get (key : string) : M pyobj :=
  do c <- read_cache;
  match c !! key with
  | Some (ts, val) =>
      do now <- time_time;
      if Qlt_bool (float_sub now ts) (inject_Z (CACHE_TTL_SECONDS cfg))
      then ret val
      else ret PNone
  | None => ret PNone
  end.

Definition cache_set (key : string) (val : pyobj) : M unit :=
  do now <- time_time;
  do c <- read_cache;
  write_cache (<[key := (now, val)]> c).

(* ------------------------------------------------------------------ *)
(** ** Routes: markets *)

Record Health := {
  health_status : string;
  health_timestamp : Q;
  health_version : string
}.

Definition health : M Health :=
  do now <- time_time;
  ret {| health_status := "ok"; health_timestamp := now;
         health_version := "1.0.0" |}.

(** [m["category"].upper() == category.upper()] *)
Definition category_matches (c : string) (m : Market) : bool :=
  String.eqb (PyStr.upper (category m)) (PyStr.upper c).

(** [q in m["question"].lower() or q in str(m.get("tags", "")).lower()] *)
Definition search_matches (q : string) (m : Market) : bool :=
  PyStr.contains q (PyStr.lower (question m))
  || PyStr.contains q (PyStr.lower (PyStr.str_list (tags m))).

(** the dictionary [sort_map]; every seed entry has the four keys, so the
    defaults of [m.get] are never used *)
Definition sort_map (sort_by : string) : option (Market -> Q) :=
  if String.eqb sort_by "volume_24h" then Some volume_24h_usd
  else if String.eqb sort_by "total_volume" then Some total_volume_usd
  else if String.eqb sort_by "num_traders"
       then Some (fun m => inject_Z (num_traders m))
  else if String.eqb sort_by "yes_price"
       then Some (fun m => inject_Z (yes_price_bps m))
  else None.

(** [sort_map.get(sort_by, sort_map["volume_24h"])] *)
Definition sort_key (sort_by : string) : Market -> Q :=
  default volume_24h_usd (sort_map sort_by).

Definition markets_cache_key (category : option string) (sort_by : string)
    (page page_size : Z) (search : option string) : string :=
  "markets:" +:+ PyStr.format_opt category +:+ ":" +:+ sort_by +:+ ":"
  +:+ pretty page +:+ ":" +:+ pretty page_size +:+ ":"
  +:+ PyStr.format_opt search.

(** the body of [list_markets] after the cache lookup, up to the
    construction of [result] *)
Definition list_markets_result (category : option string) (sort_by : string)
    (page page_size : Z) (search : option string) : MarketSearchResult :=
  let markets := MOCK_MARKETS in
  let markets :=
    if PyStr.truthy_opt category
    then List.filter (category_matches (PyStr.format_opt category)) markets
    else markets in
  let markets :=
    if PyStr.truthy_opt search
    then let q := PyStr.lower (PyStr.format_opt search) in
         List.filter (search_matches q) markets
    else markets in
  let markets := sort_desc (sort_key sort_by) markets in
  let total := Z.of_nat (length markets) in
  let start := (page - 1) * page_size in
  let end_ := start + page_size in
  let paged := py_slice markets start end_ in
  {| markets := paged; total_count := total;
     page := page; page_size := page_size |}.

Definition list_markets (category : option string) (sort_by : string)
    (page page_size : Z) (search : option string) : M pyobj :=
  let cache_key := markets_cache_key category sort_by page page_size search in
  do cached <- cache_get cache_key;
  if truthy cached then ret cached
  else
    let result := list_markets_result category sort_by page page_size search in
    exec cache_set cache_key (PSearchResult result);
    ret (PSearchResult result).

(** the key of [hot_markets]:
    [m["volume_24h_usd"] * abs(m["yes_price_bps"] - 5000) / 5000] *)
Definition hot_score (m : Market) : Q :=
  (volume_24h_usd m * inject_Z (Z.abs (yes_price_bps m - 5000)) / 5000)%Q.

Definition hot_markets (limit : Z) : M pyobj :=
  do cached <- cache_get ("hot:" +:+ pretty limit);
  if truthy cached then ret cached
  else
    let scored := sort_desc hot_score MOCK_MARKETS in
    let result := py_slice scored 0 limit in
    exec cache_set ("hot:" +:+ pretty limit) (PMarkets result);
    ret (PMarkets result).

Record HTTPException := {
  status_code : Z;
  detail : string
}.

(** [next((m for m in MOCK_MARKETS if m["market_id"] == market_id), None)] *)
Definition find_market (id : Z) : pyobj :=
  match List.find (fun m => market_id m =? id) MOCK_MARKETS with
  | Some m => PMarket m
  | None => PNone
  end.

Definition get_market (market_id : Z) : M (HTTPException + pyobj) :=
  do cached <- cache_get ("market:" +:+ pretty market_id);
  if truthy cached then ret (inr cached)
  else
    let market := find_market market_id in
    if negb (truthy market)
    then ret (inl {| status_code := 404;
                     detail := "Market " +:+ pretty market_id
                               +:+ " not found" |})
    else
      exec cache_set ("market:" +:+ pretty market_id) market;
      ret (inr market).

Fixpoint string_repeat (s : string) (n : nat) : string :=
  match n with
  | O => ""
  | S n' => s +:+ string_repeat s n'
  end.

(** the dictionary built for index [i]; the clock is read once for each *)
Definition mock_trade (market_id i : Z) : M Trade :=
  do now <- time_time;
  ret {| trade_market_id := market_id;
         trader := "0xabc123...";
         is_buy_yes := true;
         usdc_in := 5000;
         shares_out := 14641 # 2;
         price_bps := 6840;
         tx_hash := "0x" +:+ string_repeat "a" 64;
         timestamp := (now - inject_Z (i * 30))%Q |}.

Definition get_market_trades (market_id limit : Z) (before_ts : option Q)
    : M (list Trade) :=
  mapM (mock_trade market_id) (py_range (Z.min limit 20)).

Definition intervals (interval : string) : option Z :=
  if String.eqb interval "1m" then Some 60
  else if String.eqb interval "5m" then Some 300
  else if String.eqb interval "15m" then Some 900
  else if String.eqb interval "1h" then Some 3600
  else if String.eqb interval "4h" then Some 14400
  else if String.eqb interval "1d" then Some 86400
  else None.

(** the loop [for i in range(limit, 0, -1)] over the remaining indices,
    with the loop variables [price] and [candles] *)
Fixpoint candle_loop (now step : Z) (indices : list Z) (price : Z)
    (acc : list Candle) : M (list Candle) :=
  match indices with
  | [] => ret acc
  | i :: rest =>
      let t := now - i * step in
      do delta <- random_randint (-200) 200;
      let open_ := price in
      let close_ := Z.max 100 (Z.min 9900 (price + delta)) in
      do up <- random_randint 0 100;
      let high_ := Z.max open_ close_ + up in
      do down <- random_randint 0 100;
      let low_ := Z.min open_ close_ - down in
      do vol <- random_uniform 10000 200000;
      candle_loop now step rest close_
        (acc ++ [{| time := t; open := open_; high := high_;
                    low := low_; close := close_; volume := vol |}])
  end.

Definition get_price_history (market_id : Z) (interval : string) (limit : Z)
    : M PriceHistory :=
  do t0 <- time_time;
  let now := int_of_float t0 in
  let step := default 3600 (intervals interval) in
  exec random_seed market_id;
  do cs <- candle_loop now step (py_range_down limit) 5000 [];
  ret {| ph_market_id := market_id; ph_interval := interval;
         candles := cs |}.

(** [req.image_url or f"{IPFS_GATEWAY}{req.image_ipfs_hash}"
     if req.image_ipfs_hash else ""]: a conditional expression binds
    weaker than [or], so [req.image_ipfs_hash] is tested first *)
Definition resolve_image_url (req : CreateMarketRequest) : string :=
  if PyStr.truthy_opt (req_image_ipfs_hash req)
  then
    if PyStr.truthy_opt (req_image_url req)
    then PyStr.format_opt (req_image_url req)
    else IPFS_GATEWAY cfg +:+ PyStr.format_opt (req_image_ipfs_hash req)
  else "".

Record CreatedMetadata := {
  created_metadata_id : string;
  ipfs_uri : string
}.

Definition create_market_metadata (req : CreateMarketRequest)
    : M CreatedMetadata :=
  do t0 <- time_time;
  let metadata_id := "vp-" +:+ pretty (int_of_float t0) in
  let image_url := resolve_image_url req in
  do t1 <- time_time;
  let new_meta :=
    {| meta_metadata_id := metadata_id;
       meta_question := req_question req;
       meta_description := req_description req;
       meta_category := req_category req;
       meta_image_url := image_url;
       meta_tags := req_tags req;
       meta_source_url := req_source_url req;
       meta_resolution_rules := req_resolution_rules req;
       meta_created_at := t1 |} in
  exec cache_set ("pending_meta:" +:+ metadata_id) (PMeta new_meta);
  ret {| created_metadata_id := metadata_id;
         ipfs_uri := "ipfs://" +:+ metadata_id |}.

(* ------------------------------------------------------------------ *)
(** ** The HTTP binding

    A request names a route with its parameters; the [Query] constraints
    of the route are checked before the handler runs, and a request that
    fails them is answered 422 without running it (the list of errors in
    the body of that answer is not modelled).  The routes below are
    the ones that use the cache, the clock or the generator; of the others
    (leaderboard, users, resolution status, search, categories) none
    touches the world, and the activity feed reads the clock once, as
    [health] does. *)

Inductive Request :=
| GetHealth
| GetMarkets (category : option string) (sort_by : string)
    (page page_size : Z) (search : option string)
| GetHotMarkets (limit : Z)
| GetMarket (market_id : Z)
| GetMarketTrades (market_id limit : Z) (before_ts : option Q)
| GetPriceHistory (market_id : Z) (interval : string) (limit : Z)
| PostMarkets (req : CreateMarketRequest).

Inductive Response :=
| RHealth (h : Health)
| RObject (v : pyobj)
| RTrades (l : list Trade)
| RPriceHistory (h : PriceHistory)
| RCreated (c : CreatedMetadata)
| RError (e : HTTPException).

Definition valid_request (r : Request) : bool :=
  match r with
  | GetHealth => true
  | GetMarkets _ _ page page_size _ =>
      (1 <=? page) && (1 <=? page_size) && (page_size <=? 100)
  | GetHotMarkets limit => (1 <=? limit) && (limit <=? 20)
  | GetMarket _ => true
  | GetMarketTrades _ limit _ => (1 <=? limit) && (limit <=? 500)
  | GetPriceHistory _ _ limit => (1 <=? limit) && (limit <=? 1000)
  | PostMarkets _ => true
  end.

Definition dispatch (r : Request) : M Response :=
  match r with
  | GetHealth => do h <- health; ret (RHealth h)
  | GetMarkets category sort_by page page_size search =>
      do v <- list_markets category sort_by page page_size search;
      ret (RObject v)
  | GetHotMarkets limit => do v <- hot_markets limit; ret (RObject v)
  | GetMarket market_id =>
      do r <- get_market market_id;
      ret (match r with inl e => RError e | inr v => RObject v end)
  | GetMarketTrades market_id limit before_ts =>
      do l <- get_market_trades market_id limit before_ts; ret (RTrades l)
  | GetPriceHistory market_id interval limit =>
      do h <- get_price_history market_id interval limit;
      ret (RPriceHistory h)
  | PostMarkets req =>
      do c <- create_market_metadata req; ret (RCreated c)
  end.

Definition handle (r : Request) : M Response :=
  if valid_request r then dispatch r
  else ret (RError {| status_code := 422; detail := "validation error" |}).

(** the process starts with an empty cache *)
Definition initial (w : World) : Prop := cache w = ∅.

(** the worlds the service can be in: any number of requests after start *)
Inductive reachable : World -> Prop :=
| reachable_start : forall w, initial w -> reachable w
| reachable_step : forall w r,
    reachable w -> reachable (snd (handle r w)).

End Service.

(* ------------------------------------------------------------------ *)
(** ** Specification-side definitions

    What the specification counts and compares, written from its words and
    used only in statements. *)

(** a market passes the category filter: case-insensitive equality, when a
    category is given *)
Definition passes_category (given : option string) (m : Market) : bool :=
  match given with
  | None => true
  | Some c => String.eqb (PyStr.upper (category m)) (PyStr.upper c)
  end.

(** a market passes the search filter: the search text occurs, ignoring
    case, in the question or in the string form of the tags *)
Definition passes_search (given : option string) (m : Market) : bool :=
  match given with
  | None => true
  | Some s =>
      PyStr.contains (PyStr.lower s) (PyStr.lower (question m))
      || PyStr.contains (PyStr.lower s)
           (PyStr.lower (PyStr.str_list (tags m)))
  end.

(** the number of seed markets that pass both filters *)
Definition matching_count (category search : option string) : Z :=
  Z.of_nat (length (List.filter
    (fun m => passes_category category m && passes_search search m)
    MOCK_MARKETS)).

(** the size of page [page] of [total] entries in pages of [page_size] *)
Definition page_length (total page page_size : Z) : Z :=
  Z.min page_size (Z.max 0 (total - (page - 1) * page_size)).

(** every field of a candle except [time] *)
Definition candle_values (c : Candle) : Z * Z * Z * Z * Q :=
  (open c, high c, low c, close c, volume c).

(** [x] occurs before [y] in [l] *)
Definition occurs_before {A : Type} (x y : A) (l : list A) : Prop :=
  exists l1 l2 l3, l = (l1 ++ x :: l2 ++ y :: l3)%list.

(** the candles that the specification describes, drawn from the
    generator in state [s]: [n] candles for the indices [i], [i - 1], ...,
    the first opening at [price]; each candle takes a [randint(-200, 200)]
    for its step, a [randint(0, 100)] for its high, a [randint(0, 100)] for
    its low and a [uniform(10000, 200000)] for its volume *)
Fixpoint drawn_walk {G : RandomGen} (now step i price : Z) (n : nat)
    (s : rng_state) : list Candle :=
  match n with
  | O => []
  | S n' =>
      let (delta, s1) := rng_randint (-200) 200 s in
      let (up, s2) := rng_randint 0 100 s1 in
      let (down, s3) := rng_randint 0 100 s2 in
      let (vol, s4) := rng_uniform 10000 200000 s3 in
      let close_ := Z.max 100 (Z.min 9900 (price + delta)) in
      {| time := now - i * step;
         open := price;
         high := Z.max price close_ + up;
         low := Z.min price close_ - down;
         close := close_;
         volume := vol |}
      :: drawn_walk now step (i - 1) close_ n' s4
  end.

(** the candles of the price walk: [cs] starts at index [i] with opening
    price [price]; every candle is one step of the walk *)
Fixpoint price_walk (now step i price : Z) (cs : list Candle) : Prop :=
  match cs with
  | [] => True
  | c :: cs' =>
      time c = now - i * step
      /\ open c = price
      /\ (exists delta, -200 <= delta <= 200
            /\ close c = Z.max 100 (Z.min 9900 (price + delta)))
      /\ (exists up, 0 <= up <= 100
            /\ high c = Z.max (open c) (close c) + up)
      /\ (exists down, 0 <= down <= 100
            /\ low c = Z.min (open c) (close c) - down)
      /\ (10000 <= volume c <= 200000)%Q
      /\ price_walk now step (i - 1) (close c) cs'
  end.

(** the world with the entry of [key] removed from the cache *)
Definition without_key {G : RandomGen} (key : string) (w : World) : World :=
  {| cache := delete key (cache w); wall := wall w;
     ticks := ticks w; rng := rng w |}.


(** the interval names of the table *)
Definition interval_names : list string :=
  ["1m"; "5m"; "15m"; "1h"; "4h"; "1d"].

(** the names that [sort_map] knows *)
Definition sort_names : list string :=
  ["volume_24h"; "total_volume"; "num_traders"; "yes_price"].

(* ------------------------------------------------------------------ *)
(** ** Auxiliary definitions of the proofs *)

(** descending order of the keys, and equality of keys *)
Definition key_desc {A : Type} (key : A -> Q) (x y : A) : Prop :=
  (key y <= key x)%Q.

Definition same_key {A : Type} (key : A -> Q) (k : Q) (x : A) : bool :=
  Qeq_bool (key x) k.

(** the indices [i, i-1, ...], [n] of them *)
Fixpoint countdown (i : Z) (n : nat) : list Z :=
  match n with
  | O => []
  | S n' => i :: countdown (i - 1) n'
  end.

(** the entry that a request adds to the cache, when it adds one *)
Inductive cache_write : Request -> string -> pyobj -> Prop :=
| write_listing : forall category sort_by page page_size search,
    1 <= page -> 1 <= page_size <= 100 ->
    cache_write (GetMarkets category sort_by page page_size search)
      (markets_cache_key category sort_by page page_size search)
      (PSearchResult
         (list_markets_result category sort_by page page_size search))
| write_hot : forall limit,
    cache_write (GetHotMarkets limit) ("hot:" +:+ pretty limit)
      (PMarkets (py_slice (sort_desc hot_score MOCK_MARKETS) 0 limit))
| write_market : forall id,
    truthy (find_market id) = true ->
    cache_write (GetMarket id) ("market:" +:+ pretty id) (find_market id)
| write_pending : forall req id meta,
    cache_write (PostMarkets req) ("pending_meta:" +:+ id) (PMeta meta).

(** what the cache may hold under a key of [get_market]: the seed record
    with that id *)
Definition market_entries_ok {G : RandomGen} (w : World) : Prop :=
  forall id ts v,
    cache w !! ("market:" +:+ pretty id) = Some (ts, v) ->
    v = find_market id /\ truthy v = true.

(** what the cache may hold under a key of [list_markets]: the result
    computed for some valid request that builds this key *)
Definition listing_entries_ok {G : RandomGen} (w : World) : Prop :=
  forall category sort_by page page_size search ts v,
    cache w !! markets_cache_key category sort_by page page_size search
      = Some (ts, v) ->
    exists category' sort_by' page' page_size' search',
      1 <= page' /\ 1 <= page_size' <= 100
      /\ markets_cache_key category' sort_by' page' page_size' search'
         = markets_cache_key category sort_by page page_size search
      /\ v = PSearchResult
               (list_markets_result category' sort_by' page' page_size'
                  search').

(* ------------------------------------------------------------------ *)
(** ** Concrete worlds and requests *)

(** a world to run examples in: empty cache, a clock that starts at
    1700000000 and gains [pace] seconds with every reading *)
Definition start_world (pace : Z) : @World lcg_gen :=
  @Build_World lcg_gen
    ∅
    (fun n => as_time (inject_Z (1700000000 + pace * Z.of_nat n)))
    0%nat
    (0 : Z).

(** a submission with an explicit image URL and no IPFS hash *)
Definition url_only_request : CreateMarketRequest :=
  {| req_question := "Will it rain tomorrow?";
     req_description := "Resolves YES if it rains.";
     req_category := "CULTURE";
     req_image_ipfs_hash := None;
     req_image_url := Some "https://example.com/rain.png";
     req_tags := ["weather"];
     req_source_url := None;
     req_resolution_rules := "Official weather report." |}.

(** the world after [GET /markets] without parameters other than the
    defaults *)
Definition after_unfiltered_listing : @World lcg_gen :=
  snd (handle default_config (GetMarkets None "volume_24h" 1 20 None)
         (start_world 1)).

(** the world after [GET /markets?category=None&page=2] *)
Definition after_none_category_listing : @World lcg_gen :=
  snd (handle default_config (GetMarkets (Some "None") "volume_24h" 2 20 None)
         (start_world 1)).

(** the world after [GET /markets?sort_by=yes_price:1:1] *)
Definition after_odd_sort_listing : @World lcg_gen :=
  snd (handle default_config (GetMarkets None "yes_price:1:1" 1 20 None)
         (start_world 1)).

(* ------------------------------------------------------------------ *)
(** ** Routes: leaderboard, activity feed, search

    These routes use neither the cache nor the generator; the activity
    feed reads the clock once. *)

Record LeaderboardEntry := {
  rank : Z;
  address : string;
  display_name : option string;
  avatar_url : option string;
  total_pnl : Q;
  roi_pct : Q;
  accuracy_rate : Q;
  belief_score : Z;
  num_positions : Z
}.

Definition MOCK_LEADERBOARD : list LeaderboardEntry :=
  [ {| rank := 1;
       address := "0xd8dA6BF26964aF9D7eEd9e03E53415D37aA96045";
       display_name := Some "0xVitalik"; avatar_url := None;
       total_pnl := 428500; roi_pct := 3124 # 10; accuracy_rate := 74 # 100;
       belief_score := 9820; num_positions := 156 |};
    {| rank := 2;
       address := "0x742d35Cc6634C0532925a3b844Bc454e4438f44e";
       display_name := Some "PredictorX"; avatar_url := None;
       total_pnl := 287200; roi_pct := 2411 # 10; accuracy_rate := 71 # 100;
       belief_score := 8455; num_positions := 203 |};
    {| rank := 3;
       address := "0x1234567890AbcdEF1234567890aBcdef12345678";
       display_name := Some "WhaleSeer"; avatar_url := None;
       total_pnl := 194100; roi_pct := 1887 # 10; accuracy_rate := 68 # 100;
       belief_score := 7210; num_positions := 89 |} ].

(** one [LeaderboardEntry] for each entry of [MOCK_LEADERBOARD[:limit]] *)
Definition get_leaderboard (metric : string) (limit : Z) (timeframe : string)
    : list LeaderboardEntry :=
  py_slice MOCK_LEADERBOARD 0 limit.







Record SearchResponse := {
  sr_query : string;
  sr_results : list Market;
  sr_count : Z
}.

(** [GET /search]; every seed entry has the key [tags] *)
Definition search (q : string) : SearchResponse :=
  let results :=
    List.filter
      (fun m =>
         PyStr.contains (PyStr.lower q) (PyStr.lower (question m))
         || PyStr.contains (PyStr.lower q)
              (PyStr.lower (PyStr.str_list (tags m))))
      MOCK_MARKETS in
  {| sr_query := q; sr_results := results;
     sr_count := Z.of_nat (length results) |}.

(* ------------------------------------------------------------------ *)
(** ** More auxiliary definitions *)

(** the list that [list_markets] pages: the seed markets left by the
    filters, sorted *)
Definition listing (category : option string) (sort_by : string)
    (search : option string) : list Market :=
  markets (list_markets_result category sort_by 1
             (Z.of_nat (length MOCK_MARKETS)) search).

(** the ranking of [hot_markets] *)
Definition hot_ranking : list Market := sort_desc hot_score MOCK_MARKETS.

(** what the cache may hold under a key of [hot_markets] *)
Definition hot_entries_ok {G : RandomGen} (w : World) : Prop :=
  forall limit ts v,
    cache w !! ("hot:" +:+ pretty limit) = Some (ts, v) ->
    v = PMarkets (py_slice hot_ranking 0 limit).

(** a candle is well formed: the prices are in range and low and high
    enclose open and close *)
Definition candle_sane (c : Candle) : Prop :=
  100 <= open c <= 9900 /\ 100 <= close c <= 9900
  /\ low c <= Z.min (open c) (close c)
  /\ Z.max (open c) (close c) <= high c
  /\ 0 <= low c /\ high c <= 10000
  /\ (10000 <= volume c <= 200000)%Q.

(** the pending record that [create_market_metadata] composes for a
    request, from its two clock readings *)
Definition pending_record (cfg : Config) (req : CreateMarketRequest)
    (t0 t1 : Q) : PendingMeta :=
  {| meta_metadata_id := "vp-" +:+ pretty (int_of_float t0);
     meta_question := req_question req;
     meta_description := req_description req;
     meta_category := req_category req;
     meta_image_url := resolve_image_url cfg req;
     meta_tags := req_tags req;
     meta_source_url := req_source_url req;
     meta_resolution_rules := req_resolution_rules req;
     meta_created_at := t1 |}.

(** a configuration whose cache never serves an entry *)
Definition zero_ttl_config : Config := {|
  CHAIN_RPC_URL := CHAIN_RPC_URL default_config;
  CONTRACT_ADDRESS := CONTRACT_ADDRESS default_config;
  SUBGRAPH_URL := SUBGRAPH_URL default_config;
  IPFS_GATEWAY := IPFS_GATEWAY default_config;
  REDIS_URL := REDIS_URL default_config;
  CACHE_TTL_SECONDS := 0
|}.

(** a submission with an IPFS hash and no image URL *)
Definition hash_only_request : CreateMarketRequest :=
  {| req_question := "Will it snow tomorrow?";
     req_description := "Resolves YES if it snows.";
     req_category := "CULTURE";
     req_image_ipfs_hash := Some "QmXYZ";
     req_image_url := None;
     req_tags := ["weather"];
     req_source_url := None;
     req_resolution_rules := "Official weather report." |}.

(** a category written with U+0131 (dotless i) and a search text written
    with U+212A (Kelvin sign), in UTF-8 *)
Definition dotless_i : string :=
  String (ascii_of_N 196) (String (ascii_of_N 177) EmptyString).

Definition kelvin_sign : string :=
  String (ascii_of_N 226)
    (String (ascii_of_N 132) (String (ascii_of_N 170) EmptyString)).

Definition dotless_category : string :=
  "pol" +:+ dotless_i +:+ "t" +:+ dotless_i +:+ "cs".

Definition kelvin_query : string := "$150" +:+ kelvin_sign.

(** the binary64 numbers nearest to 0.3 and to 60.3 *)
Definition double_0_3 : Q := 5404319552844595 # 18014398509481984.
Definition double_60_3 : Q := 4243235273913139 # 70368744177664.

(** a clock that reads 0.3 and then 60.3 *)
Definition early_world : @World lcg_gen :=
  @Build_World lcg_gen
    ∅
    (fun n => match n with
              | O => as_time double_0_3
              | S _ => as_time double_60_3
              end)
    0%nat
    (0 : Z).

(** a clock that gains 100 seconds between its first two readings and one
    second with every later reading *)
Definition jump_world : @World lcg_gen :=
  @Build_World lcg_gen
    ∅
    (fun n => match n with
              | O => as_time (inject_Z 1700000000)
              | S _ => as_time (inject_Z (1700000099 + Z.of_nat n))
              end)
    0%nat
    (0 : Z).

(** a clock that stands still for its first four readings *)
Definition slow_world : @World lcg_gen :=
  @Build_World lcg_gen
    ∅
    (fun n => as_time (inject_Z (1700000000 + Z.of_nat (n / 4))))
    0%nat
    (0 : Z).

(* ------------------------------------------------------------------ *)
(** * Properties *)

Lemma Qlt_bool_iff (x y : Q) : Qlt_bool x y = true <-> (x < y)%Q.
Proof.
  unfold Qlt_bool. rewrite negb_true_iff.
  split.
  - intros H. apply Qnot_le_lt. intros Hle.
    apply Qle_bool_iff in Hle. congruence.
  - intros H. destruct (Qle_bool y x) eqn:E; [|reflexivity].
    apply Qle_bool_iff in E. exfalso. exact (Qlt_not_le _ _ H E).
Qed.

Lemma Qlt_bool_false_iff (x y : Q) : Qlt_bool x y = false <-> (y <= x)%Q.
Proof.
  unfold Qlt_bool. rewrite negb_false_iff. apply Qle_bool_iff.
Qed.

(* ------------------------------------------------------------------ *)
(** ** Float subtraction on clock readings *)

Section FloatFacts.
Import PyFloat.

Lemma round_half_even_lower (y : Q) (a : Z) :
  (inject_Z a <= y)%Q -> a <= round_half_even y.
Proof.
  intros H. assert (Hf : a <= Qfloor y).
  { rewrite <- (Qfloor_Z a). now apply Qfloor_resp_le. }
  unfold round_half_even.
  destruct (y - inject_Z (Qfloor y) ?= 1 # 2)%Q; [destruct (Z.even _)| |]; lia.
Qed.

Lemma round_half_even_upper (y : Q) (a : Z) :
  (y <= inject_Z a)%Q -> round_half_even y <= a.
Proof.
  intros H. pose proof (Qfloor_le y) as Hf.
  assert (H0 : Qfloor y <= a).
  { rewrite Zle_Qle. lra. }
  assert (H1 : (1 # 2 <= y - inject_Z (Qfloor y))%Q -> Qfloor y + 1 <= a).
  { intros Hh. assert (Hlt : (inject_Z (Qfloor y) < inject_Z a)%Q) by lra.
    rewrite <- Zlt_Qlt in Hlt. lia. }
  unfold round_half_even.
  destruct (y - inject_Z (Qfloor y) ?= 1 # 2)%Q eqn:E.
  - apply Qeq_alt in E. destruct (Z.even _); [lia|]. apply H1. lra.
  - lia.
  - apply Qgt_alt in E. apply H1. lra.
Qed.

Lemma round_half_even_int (y : Q) (a : Z) :
  (y == inject_Z a)%Q -> round_half_even y = a.
Proof.
  intros H.
  assert (a <= round_half_even y) by (apply round_half_even_lower; lra).
  assert (round_half_even y <= a) by (apply round_half_even_upper; lra).
  lia.
Qed.

Lemma pow2_pos (e : Z) : 0 <= e -> (0 < inject_Z (2 ^ e))%Q.
Proof.
  intros H. change 0%Q with (inject_Z 0). rewrite <- Zlt_Qlt.
  apply Z.pow_pos_nonneg; lia.
Qed.

(** [log2_floor] against a power of two *)
Lemma log2_floor_lt (x : Q) (j : Z) :
  0 <= j -> (Qabs x < inject_Z (2 ^ j))%Q -> log2_floor x < j.
Proof.
  intros Hj H. unfold log2_floor.
  set (n := Z.abs (Qnum x)). set (d := Zpos (Qden x)).
  assert (Hn : n < 2 ^ j * d).
  { destruct x as [xn xd]. unfold Qabs, Qlt, inject_Z in H. simpl in H.
    subst n d. simpl. lia. }
  assert (Hk : Z.log2 n - Z.log2 d <= j).
  { assert (Hl : Z.log2 n <= Z.log2 (d * 2 ^ j))
      by (apply Z.log2_le_mono; lia).
    rewrite Z.log2_mul_pow2 in Hl by (subst d; lia). lia. }
  destruct (Qle_bool _ _) eqn:E; [|lia].
  apply Qle_bool_iff in E.
  destruct (Z_le_gt_dec j (Z.log2 n - Z.log2 d)) as [Hbig|]; [|lia].
  exfalso. unfold scale in E.
  replace (Z.log2 n - Z.log2 d) with j in E by lia.
  destruct (0 <=? j) eqn:E0; [lra|lia].
Qed.

Lemma log2_floor_ge (x : Q) (j : Z) :
  0 <= j -> (inject_Z (2 ^ j) <= Qabs x)%Q -> j <= log2_floor x.
Proof.
  intros Hj H. unfold log2_floor.
  set (n := Z.abs (Qnum x)). set (d := Zpos (Qden x)).
  assert (Hn : 2 ^ j * d <= n).
  { destruct x as [xn xd]. unfold Qabs, Qle, inject_Z in H. simpl in H.
    subst n d. simpl. lia. }
  assert (Hk : j <= Z.log2 n - Z.log2 d).
  { assert (Hl : Z.log2 (d * 2 ^ j) <= Z.log2 n)
      by (apply Z.log2_le_mono; lia).
    rewrite Z.log2_mul_pow2 in Hl by (subst d; lia). lia. }
  destruct (Qle_bool _ _) eqn:E; [lia|].
  destruct (Z_le_gt_dec (Z.log2 n - Z.log2 d) j) as [Hsmall|]; [|lia].
  exfalso. replace (Z.log2 n - Z.log2 d) with j in E by lia.
  assert (E' : Qle_bool (scale 1 j) (Qabs x) = true); [|congruence].
  apply Qle_bool_iff. unfold scale.
  destruct (0 <=? j) eqn:E0; [lra|lia].
Qed.

(** below [2^53] the last place is at most the units: rounding is to a
    multiple of [1/p] for a positive integer [p] *)
Lemma round_double_shape (x : Q) :
  (Qabs x < inject_Z (2 ^ 53))%Q ->
  exists p : Z, 0 < p
    /\ (round_double x * inject_Z p
        == inject_Z (round_half_even (x * inject_Z p)))%Q.
Proof.
  intros H. apply (log2_floor_lt x 53) in H; [|lia]. unfold round_double.
  assert (He : ulp_exponent x <= 0) by (unfold ulp_exponent; lia).
  set (e := ulp_exponent x) in *. exists (2 ^ (- e)).
  assert (Hp : 0 < 2 ^ (- e)) by (apply Z.pow_pos_nonneg; lia).
  split; [exact Hp|].
  assert (Hq : (0 < inject_Z (2 ^ (- e)))%Q) by (apply pow2_pos; lia).
  unfold scale at 2. destruct (0 <=? - e) eqn:E1; [|lia].
  unfold scale. destruct (0 <=? e) eqn:E2.
  - assert (E0 : e = 0) by lia. clearbody e. subst e.
    change (2 ^ (- 0)) with 1. change (2 ^ 0) with 1.
    change (inject_Z 1) with 1%Q. ring.
  - field. lra.
Qed.

(** so rounding does not cross an integer *)
Lemma round_double_lower (x : Q) (z : Z) :
  (Qabs x < inject_Z (2 ^ 53))%Q ->
  (inject_Z z <= x)%Q -> (inject_Z z <= round_double x)%Q.
Proof.
  intros Hx Hz. destruct (round_double_shape x Hx) as (p & Hp & E).
  assert (Hq : (0 < inject_Z p)%Q).
  { change 0%Q with (inject_Z 0). now rewrite <- Zlt_Qlt. }
  assert (Hm : z * p <= round_half_even (x * inject_Z p)).
  { apply round_half_even_lower. rewrite inject_Z_mult. nra. }
  rewrite Zle_Qle, inject_Z_mult, <- E in Hm. nra.
Qed.

Lemma round_double_upper (x : Q) (z : Z) :
  (Qabs x < inject_Z (2 ^ 53))%Q ->
  (x <= inject_Z z)%Q -> (round_double x <= inject_Z z)%Q.
Proof.
  intros Hx Hz. destruct (round_double_shape x Hx) as (p & Hp & E).
  assert (Hq : (0 < inject_Z p)%Q).
  { change 0%Q with (inject_Z 0). now rewrite <- Zlt_Qlt. }
  assert (Hm : round_half_even (x * inject_Z p) <= z * p).
  { apply round_half_even_upper. rewrite inject_Z_mult. nra. }
  rewrite Zle_Qle, inject_Z_mult, <- E in Hm. nra.
Qed.

Lemma time_facts (t : Time) :
  (round_double t == t)%Q
  /\ (- inject_Z (2 ^ 34) <= t)%Q /\ (t <= inject_Z (2 ^ 34))%Q.
Proof.
  pose proof (seconds_is_time t) as H. unfold is_time in H.
  apply andb_true_iff in H. destruct H as [H H3].
  apply andb_true_iff in H. destruct H as [H1 H2].
  apply Qeq_bool_iff in H1. apply Qle_bool_iff in H2, H3. tauto.
Qed.

Lemma time_diff_small (a b : Time) : (Qabs (a - b) < inject_Z (2 ^ 53))%Q.
Proof.
  destruct (time_facts a) as (_ & Ha1 & Ha2).
  destruct (time_facts b) as (_ & Hb1 & Hb2).
  assert (H34 : (inject_Z (2 ^ 34) * 2 < inject_Z (2 ^ 53))%Q) by reflexivity.
  apply Qabs_case; intros _; lra.
Qed.

(** the computed difference of two readings is on the same side of every
    integer as the exact one *)
Lemma float_sub_lower (a b : Time) (z : Z) :
  (inject_Z z <= a - b)%Q -> (inject_Z z <= float_sub a b)%Q.
Proof. apply round_double_lower, time_diff_small. Qed.

Lemma float_sub_upper (a b : Time) (z : Z) :
  (a - b <= inject_Z z)%Q -> (float_sub a b <= inject_Z z)%Q.
Proof. apply round_double_upper, time_diff_small. Qed.

(** a binary64 number between [2^30] and [2^31] is a multiple of [2^-22] *)
Lemma time_grid (t : Time) :
  (inject_Z (2 ^ 30) <= t)%Q -> (t < inject_Z (2 ^ 31))%Q ->
  exists m : Z, (t * inject_Z (2 ^ 22) == inject_Z m)%Q.
Proof.
  intros Hlo Hhi. destruct (time_facts t) as (Hd & _).
  assert (Habs : Qabs t == t).
  { apply Qabs_pos. assert (0 < inject_Z (2 ^ 30))%Q by reflexivity. lra. }
  assert (He : ulp_exponent t = -22).
  { unfold ulp_exponent.
    assert (log2_floor t < 31)
      by (apply log2_floor_lt; [lia | now rewrite Habs]).
    assert (30 <= log2_floor t)
      by (apply log2_floor_ge; [lia | now rewrite Habs]).
    lia. }
  unfold round_double in Hd. rewrite He in Hd.
  exists (round_half_even (scale t (- -22))).
  set (m := inject_Z (round_half_even (scale t (- -22)))) in *.
  unfold scale in Hd. change (0 <=? -22) with false in Hd. cbv iota in Hd.
  change (- -22) with 22 in Hd. rewrite <- Hd. field.
  assert (0 < inject_Z (2 ^ 22))%Q by reflexivity. lra.
Qed.

(** the difference of two readings between [2^30] and [2^31] seconds (the
    years 2004 to 2038) is a binary64 number: the subtraction is exact *)
Lemma float_sub_exact (a b : Time) :
  (inject_Z (2 ^ 30) <= a)%Q -> (a < inject_Z (2 ^ 31))%Q ->
  (inject_Z (2 ^ 30) <= b)%Q -> (b < inject_Z (2 ^ 31))%Q ->
  (float_sub a b == a - b)%Q.
Proof.
  intros Ha1 Ha2 Hb1 Hb2.
  destruct (time_grid a Ha1 Ha2) as [ma Hma].
  destruct (time_grid b Hb1 Hb2) as [mb Hmb].
  unfold float_sub, round_double.
  set (x := (a - b)%Q).
  assert (Hx : (Qabs x < inject_Z (2 ^ 30))%Q).
  { assert (inject_Z (2 ^ 31) == inject_Z (2 ^ 30) * 2)%Q by reflexivity.
    subst x. apply Qabs_case; intros _; lra. }
  assert (He : -1074 <= ulp_exponent x <= -23).
  { unfold ulp_exponent.
    assert (log2_floor x < 30) by (apply log2_floor_lt; [lia | exact Hx]).
    lia. }
  set (e := ulp_exponent x) in *.
  assert (Hp : (0 < inject_Z (2 ^ (- e)))%Q) by (apply pow2_pos; lia).
  assert (Hsplit : 2 ^ (- e) = 2 ^ 22 * 2 ^ (- e - 22)).
  { rewrite <- Z.pow_add_r by lia. f_equal. lia. }
  assert (Hint : (scale x (- e) == inject_Z ((ma - mb) * 2 ^ (- e - 22)))%Q).
  { unfold scale. destruct (0 <=? - e) eqn:E; [|lia].
    rewrite Hsplit, !inject_Z_mult. unfold Zminus.
    rewrite inject_Z_plus, inject_Z_opp, <- Hma, <- Hmb. subst x. ring. }
  rewrite (round_half_even_int _ _ Hint).
  unfold scale. destruct (0 <=? e) eqn:E; [lia|].
  rewrite Hsplit, !inject_Z_mult. unfold Zminus.
  rewrite inject_Z_plus, inject_Z_opp, <- Hma, <- Hmb.
  rewrite Hsplit, inject_Z_mult in Hp.
  subst x. field. split.
  - intros H0. rewrite H0 in Hp. lra.
  - assert (0 < inject_Z (2 ^ 22))%Q by reflexivity. lra.
Qed.

(** the test of [cache_get], decided from the exact difference *)
Lemma stale_by_clock (a b : Time) (ttl : Z) :
  (inject_Z ttl <= a - b)%Q ->
  Qlt_bool (float_sub a b) (inject_Z ttl) = false.
Proof. intros H. now apply Qlt_bool_false_iff, float_sub_lower. Qed.

Lemma fresh_by_a_second (a b : Time) (ttl : Z) :
  (a - b <= inject_Z (ttl - 1))%Q ->
  Qlt_bool (float_sub a b) (inject_Z ttl) = true.
Proof.
  intros H. apply Qlt_bool_iff. apply float_sub_upper in H.
  assert (inject_Z (ttl - 1) < inject_Z ttl)%Q by (rewrite <- Zlt_Qlt; lia).
  lra.
Qed.

End FloatFacts.

Section CacheFacts.
Context (cfg : Config) {G : RandomGen}.

Lemma cache_set_run (k : string) (v : pyobj) (w : World) :
  cache_set k v w =
  (tt, {| cache := <[k := (wall w (ticks w), v)]> (cache w);
          wall := wall w; ticks := S (ticks w); rng := rng w |}).
Proof. reflexivity. Qed.

Lemma cache_get_absent (k : string) (w : World) :
  cache w !! k = None -> cache_get cfg k w = (PNone, w).
Proof.
  intros H. unfold cache_get, bind, read_cache. now rewrite H.
Qed.

Lemma cache_get_present (k : string) (ts : Time) (v : pyobj) (w : World) :
  cache w !! k = Some (ts, v) ->
  cache_get cfg k w =
  (if Qlt_bool (float_sub (wall w (ticks w)) ts)
        (inject_Z (CACHE_TTL_SECONDS cfg))
   then v else PNone,
   snd (time_time w)).
Proof.
  intros H. unfold cache_get, bind, read_cache. rewrite H.
  cbn [time_time fst snd wall ticks].
  now destruct (Qlt_bool _ _).
Qed.

Lemma cache_get_keeps_cache (k : string) (w : World) :
  cache (snd (cache_get cfg k w)) = cache w.
Proof.
  destruct (cache w !! k) as [[ts v]|] eqn:E.
  - now rewrite (cache_get_present _ _ _ _ E).
  - now rewrite (cache_get_absent _ _ E).
Qed.

(** a value read from the cache is [None] or a stored value *)
Lemma cache_get_cases (k : string) (w : World) :
  fst (cache_get cfg k w) = PNone
  \/ exists ts, cache w !! k = Some (ts, fst (cache_get cfg k w)).
Proof.
  destruct (cache w !! k) as [[ts v]|] eqn:E.
  - rewrite (cache_get_present _ _ _ _ E). simpl.
    destruct (Qlt_bool _ _); [right; eauto | left; reflexivity].
  - rewrite (cache_get_absent _ _ E). now left.
Qed.

End CacheFacts.

Section HandlerFacts.
Context (cfg : Config) {G : RandomGen}.

Lemma cache_get_falsy (k : string) (ts : Time) (v : pyobj) (w : World) :
  cache w !! k = Some (ts, v) -> truthy v = false ->
  truthy (fst (cache_get cfg k w)) = false.
Proof.
  intros E Hv. rewrite (cache_get_present _ _ _ _ _ E). simpl.
  now destruct (Qlt_bool _ _).
Qed.

(** the two paths of [list_markets] *)
Lemma list_markets_hit category sort_by page page_size search (w : World) :
  let key := markets_cache_key category sort_by page page_size search in
  truthy (fst (cache_get cfg key w)) = true ->
  list_markets cfg category sort_by page page_size search w
  = cache_get cfg key w.
Proof.
  intros key H. unfold list_markets, bind. fold key.
  destruct (cache_get cfg key w) as [v w'] eqn:E. simpl in H.
  now rewrite H.
Qed.

Lemma list_markets_miss category sort_by page page_size search (w : World) :
  let key := markets_cache_key category sort_by page page_size search in
  let result :=
    PSearchResult (list_markets_result category sort_by page page_size search) in
  truthy (fst (cache_get cfg key w)) = false ->
  list_markets cfg category sort_by page page_size search w
  = (result, snd (cache_set key result (snd (cache_get cfg key w)))).
Proof.
  intros key result H. unfold list_markets, bind. fold key.
  destruct (cache_get cfg key w) as [v w'] eqn:E. simpl in H.
  rewrite H. reflexivity.
Qed.

Lemma hot_markets_hit limit (w : World) :
  truthy (fst (cache_get cfg ("hot:" +:+ pretty limit) w)) = true ->
  hot_markets cfg limit w = cache_get cfg ("hot:" +:+ pretty limit) w.
Proof.
  intros H. unfold hot_markets, bind.
  destruct (cache_get cfg _ w) as [v w'] eqn:E. simpl in H.
  now rewrite H.
Qed.

Lemma hot_markets_miss limit (w : World) :
  let key := "hot:" +:+ pretty limit in
  let result := PMarkets (py_slice (sort_desc hot_score MOCK_MARKETS) 0 limit) in
  truthy (fst (cache_get cfg key w)) = false ->
  hot_markets cfg limit w
  = (result, snd (cache_set key result (snd (cache_get cfg key w)))).
Proof.
  intros key result H. unfold hot_markets, bind. fold key.
  destruct (cache_get cfg key w) as [v w'] eqn:E. simpl in H.
  rewrite H. reflexivity.
Qed.

Lemma get_market_hit id (w : World) :
  let key := "market:" +:+ pretty id in
  truthy (fst (cache_get cfg key w)) = true ->
  get_market cfg id w
  = (inr (fst (cache_get cfg key w)), snd (cache_get cfg key w)).
Proof.
  intros key H. unfold get_market, bind. fold key.
  destruct (cache_get cfg key w) as [v w'] eqn:E. simpl in H.
  now rewrite H.
Qed.

Lemma get_market_miss id (w : World) :
  let key := "market:" +:+ pretty id in
  let w' := snd (cache_get cfg key w) in
  truthy (fst (cache_get cfg key w)) = false ->
  get_market cfg id w
  = if truthy (find_market id)
    then (inr (find_market id), snd (cache_set key (find_market id) w'))
    else (inl {| status_code := 404;
                 detail := "Market " +:+ pretty id +:+ " not found" |}, w').
Proof.
  intros key w' H. unfold get_market, bind. fold key. subst w'.
  destruct (cache_get cfg key w) as [v w1] eqn:E. simpl in H.
  rewrite H. simpl. now destruct (truthy (find_market id)).
Qed.

(** C2, as the code has it. A value stored with [cache_set] is returned
    unchanged by the [cache_get] that follows when the difference of the
    two clock readings, as the float subtraction computes it, is below
    [CACHE_TTL_SECONDS], and absence is reported when that difference is
    [CACHE_TTL_SECONDS] or more.  In terms of the time that elapsed:
    absence once [CACHE_TTL_SECONDS] or more have elapsed; the value when
    at most [CACHE_TTL_SECONDS - 1] have; and the value whenever less than
    [CACHE_TTL_SECONDS] have elapsed between two readings from [2^30] to
    [2^31] seconds (the years 2004 to 2038), where the subtraction is
    exact. *)
Theorem cache_round_trip (k : string) (v : pyobj) (w : World) :
  let stored_at := wall w (ticks w) in
  let read_at := wall w (S (ticks w)) in
  let w1 := snd (cache_set k v w) in
  let ttl := CACHE_TTL_SECONDS cfg in
  ((float_sub read_at stored_at < inject_Z ttl)%Q ->
     fst (cache_get cfg k w1) = v)
  /\ ((inject_Z ttl <= float_sub read_at stored_at)%Q ->
     fst (cache_get cfg k w1) = PNone)
  /\ ((inject_Z ttl <= read_at - stored_at)%Q ->
     fst (cache_get cfg k w1) = PNone)
  /\ ((read_at - stored_at <= inject_Z (ttl - 1))%Q ->
     fst (cache_get cfg k w1) = v)
  /\ ((inject_Z (2 ^ 30) <= stored_at)%Q -> (stored_at < inject_Z (2 ^ 31))%Q ->
      (inject_Z (2 ^ 30) <= read_at)%Q -> (read_at < inject_Z (2 ^ 31))%Q ->
      (read_at - stored_at < inject_Z ttl)%Q ->
     fst (cache_get cfg k w1) = v).
Proof.
  cbv zeta. rewrite cache_set_run. cbn [snd].
  erewrite cache_get_present by (cbn [cache]; apply lookup_insert_eq).
  cbn [fst wall ticks].
  split; [|split; [|split; [|split]]].
  - intros H. apply Qlt_bool_iff in H. now rewrite H.
  - intros H. apply Qlt_bool_false_iff in H. now rewrite H.
  - intros H. now rewrite (stale_by_clock _ _ _ H).
  - intros H. now rewrite (fresh_by_a_second _ _ _ H).
  - intros Hs1 Hs2 Hr1 Hr2 H.
    pose proof (float_sub_exact _ _ Hr1 Hr2 Hs1 Hs2) as E.
    rewrite <- E in H. apply Qlt_bool_iff in H. now rewrite H.
Qed.

(** C10. A stored [None] reads back as the absent signal, the same as a
    key never set and as an expired entry; and a handler that tests the
    truth value of what it read answers, for a stored false value, what it
    answers with the entry removed: it computes its result again. *)
Theorem stored_none_is_absent (k : string) (w : World) :
  fst (cache_get cfg k (snd (cache_set k PNone w))) = PNone
  /\ (cache w !! k = None -> fst (cache_get cfg k w) = PNone)
  /\ (forall (ts : Time) v, cache w !! k = Some (ts, v) ->
        (inject_Z (CACHE_TTL_SECONDS cfg) <= wall w (ticks w) - ts)%Q ->
        fst (cache_get cfg k w) = PNone)
  /\ (forall ts v, cache w !! k = Some (ts, v) -> truthy v = false ->
        (forall category sort_by page page_size search,
            k = markets_cache_key category sort_by page page_size search ->
            fst (list_markets cfg category sort_by page page_size search w)
            = PSearchResult
                (list_markets_result category sort_by page page_size search)
            /\ fst (list_markets cfg category sort_by page page_size search w)
               = fst (list_markets cfg category sort_by page page_size search
                        (without_key k w)))
        /\ (forall limit, k = "hot:" +:+ pretty limit ->
            fst (hot_markets cfg limit w)
            = PMarkets (py_slice (sort_desc hot_score MOCK_MARKETS) 0 limit)
            /\ fst (hot_markets cfg limit w)
               = fst (hot_markets cfg limit (without_key k w)))
        /\ (forall id, k = "market:" +:+ pretty id ->
            fst (get_market cfg id w)
            = fst (get_market cfg id (without_key k w)))).
Proof.
  assert (Hgone : cache (without_key k w) !! k = None).
  { simpl. apply lookup_delete_eq. }
  assert (Hmiss : truthy (fst (cache_get cfg k (without_key k w))) = false).
  { now rewrite (cache_get_absent _ _ _ Hgone). }
  split; [|split; [|split]].
  - rewrite cache_set_run.
    erewrite cache_get_present by (cbn [snd cache]; apply lookup_insert_eq).
    cbn [fst]. now destruct (Qlt_bool _ _).
  - intros E. now rewrite (cache_get_absent _ _ _ E).
  - intros ts v E Hold. rewrite (cache_get_present _ _ _ _ _ E). cbn [fst].
    now rewrite (stale_by_clock _ _ _ Hold).
  - intros ts v E Hv.
    pose proof (cache_get_falsy _ _ _ _ E Hv) as Hfalse.
    split; [|split].
    + intros category sort_by page page_size search ->.
      rewrite !list_markets_miss by assumption. simpl. tauto.
    + intros limit ->.
      rewrite !hot_markets_miss by assumption. simpl. tauto.
    + intros id ->.
      rewrite !get_market_miss by assumption.
      now destruct (truthy (find_market id)).
Qed.

End HandlerFacts.

(* ------------------------------------------------------------------ *)
(** ** The stable descending sort *)

Section SortFacts.
Context {A : Type} (key : A -> Q).

Lemma insert_desc_length (x : A) (l : list A) :
  length (insert_desc key x l) = S (length l).
Proof.
  induction l as [|y l IH]; simpl; [reflexivity|].
  destruct (Qle_bool (key y) (key x)); simpl; congruence.
Qed.

Lemma sort_desc_length (l : list A) :
  length (sort_desc key l) = length l.
Proof.
  induction l as [|x l IH]; simpl; [reflexivity|].
  rewrite insert_desc_length. congruence.
Qed.

Lemma insert_desc_perm (x : A) (l : list A) :
  Permutation (insert_desc key x l) (x :: l).
Proof.
  induction l as [|y l IH]; simpl; [reflexivity|].
  destruct (Qle_bool (key y) (key x)); [reflexivity|].
  rewrite IH. apply perm_swap.
Qed.

Lemma sort_desc_perm (l : list A) : Permutation (sort_desc key l) l.
Proof.
  induction l as [|x l IH]; simpl; [reflexivity|].
  rewrite insert_desc_perm. now constructor.
Qed.

Lemma sort_desc_In (x : A) (l : list A) :
  In x (sort_desc key l) <-> In x l.
Proof.
  split; apply Permutation_in;
    [apply sort_desc_perm | symmetry; apply sort_desc_perm].
Qed.

Lemma insert_desc_sorted (x : A) (l : list A) :
  StronglySorted (key_desc key) l ->
  StronglySorted (key_desc key) (insert_desc key x l).
Proof.
  induction 1 as [|y l Hs IH Hy]; simpl.
  - repeat constructor.
  - destruct (Qle_bool (key y) (key x)) eqn:E.
    + apply Qle_bool_iff in E.
      constructor; [now constructor|].
      constructor; [exact E|].
      eapply List.Forall_impl; [|exact Hy].
      intros z Hz. unfold key_desc in *. now apply Qle_trans with (key y).
    + constructor; [exact IH|].
      assert (Hxy : (key x <= key y)%Q).
      { apply Qlt_le_weak, Qnot_le_lt. intros Hle.
        apply Qle_bool_iff in Hle. congruence. }
      apply (Permutation_Forall (Permutation_sym (insert_desc_perm x l))).
      now constructor.
Qed.

Lemma sort_desc_sorted (l : list A) :
  StronglySorted (key_desc key) (sort_desc key l).
Proof.
  induction l as [|x l IH]; simpl; [constructor|].
  now apply insert_desc_sorted.
Qed.

Lemma sorted_occurs_before (R : A -> A -> Prop) (x y : A) (l : list A) :
  StronglySorted R l -> occurs_before x y l -> R x y.
Proof.
  intros Hs (l1 & l2 & l3 & ->).
  induction l1 as [|z l1 IH]; simpl in Hs.
  - apply StronglySorted_inv in Hs as [_ Hall].
    rewrite List.Forall_forall in Hall. apply Hall.
    apply in_or_app. right. now left.
  - apply StronglySorted_inv in Hs as [Hs _]. now apply IH.
Qed.

(** an element is inserted in front of the elements that have its key *)
Lemma filter_insert_desc (k : Q) (x : A) (l : list A) :
  List.filter (same_key key k) (insert_desc key x l)
  = List.filter (same_key key k) (x :: l).
Proof.
  induction l as [|y l IH]; [reflexivity|].
  simpl insert_desc.
  destruct (Qle_bool (key y) (key x)) eqn:E; [reflexivity|].
  simpl in *. rewrite IH.
  destruct (same_key key k x) eqn:Ex; [|reflexivity].
  destruct (same_key key k y) eqn:Ey; [|reflexivity].
  exfalso. unfold same_key in *.
  apply Qeq_bool_iff in Ex, Ey.
  assert (Hle : (key y <= key x)%Q) by (rewrite Ex, Ey; apply Qle_refl).
  apply Qle_bool_iff in Hle. congruence.
Qed.

(** stability: among the elements with one key the order is unchanged *)
Lemma filter_sort_desc (k : Q) (l : list A) :
  List.filter (same_key key k) (sort_desc key l)
  = List.filter (same_key key k) l.
Proof.
  induction l as [|x l IH]; [reflexivity|].
  simpl sort_desc. rewrite filter_insert_desc. simpl. now rewrite IH.
Qed.

End SortFacts.

Lemma occurs_before_filter {A : Type} (f : A -> bool) (x y : A) (l : list A) :
  f x = true -> f y = true ->
  occurs_before x y l -> occurs_before x y (List.filter f l).
Proof.
  intros Hx Hy (l1 & l2 & l3 & ->).
  exists (List.filter f l1), (List.filter f l2), (List.filter f l3).
  rewrite List.filter_app. simpl. rewrite Hx.
  rewrite List.filter_app. simpl. now rewrite Hy.
Qed.

Lemma filter_app_inv {A : Type} (f : A -> bool) (l a b : list A) :
  List.filter f l = (a ++ b)%list ->
  exists l1 l2, l = (l1 ++ l2)%list
    /\ List.filter f l1 = a /\ List.filter f l2 = b.
Proof.
  revert a. induction l as [|z l IH]; intros a H; simpl in H.
  - symmetry in H. apply app_eq_nil in H as [-> ->].
    now exists [], [].
  - destruct (f z) eqn:E.
    + destruct a as [|z' a]; simpl in H.
      * exists [], (z :: l). simpl. rewrite E. auto.
      * injection H as <- H. apply IH in H as (l1 & l2 & -> & <- & <-).
        exists (z :: l1), l2. simpl. rewrite E. auto.
    + apply IH in H as (l1 & l2 & -> & <- & <-).
      exists (z :: l1), l2. simpl. rewrite E. auto.
Qed.

Lemma filter_cons_inv {A : Type} (f : A -> bool) (l : list A) (x : A)
    (b : list A) :
  List.filter f l = x :: b ->
  exists l1 l2, l = (l1 ++ x :: l2)%list /\ List.filter f l2 = b.
Proof.
  induction l as [|z l IH]; intros H; simpl in H; [discriminate|].
  destruct (f z) eqn:E.
  - injection H as -> H. now exists [], l.
  - apply IH in H as (l1 & l2 & -> & <-). now exists (z :: l1), l2.
Qed.

Lemma occurs_before_of_filter {A : Type} (f : A -> bool) (x y : A)
    (l : list A) :
  occurs_before x y (List.filter f l) -> occurs_before x y l.
Proof.
  intros (a & b & c & H).
  apply filter_app_inv in H as (l1 & l2 & -> & _ & H).
  apply filter_cons_inv in H as (l3 & l4 & -> & H).
  apply filter_app_inv in H as (l5 & l6 & -> & _ & H).
  apply filter_cons_inv in H as (l7 & l8 & -> & _).
  exists (l1 ++ l3)%list, (l5 ++ l7)%list, l8.
  now rewrite <- !app_assoc.
Qed.

Lemma occurs_before_app_l {A : Type} (x y : A) (l l' : list A) :
  occurs_before x y l -> occurs_before x y (l' ++ l)%list.
Proof.
  intros (l1 & l2 & l3 & ->). exists (l' ++ l1)%list, l2, l3.
  now rewrite <- app_assoc.
Qed.

Lemma occurs_before_app_r {A : Type} (x y : A) (l l' : list A) :
  occurs_before x y l -> occurs_before x y (l ++ l')%list.
Proof.
  intros (l1 & l2 & l3 & ->). exists l1, l2, (l3 ++ l')%list.
  rewrite <- !app_assoc. simpl. now rewrite <- app_assoc.
Qed.

(** the two facts of the sort contract, for pairs of the sorted list *)
Lemma sort_desc_descending {A : Type} (key : A -> Q) (x y : A) (l : list A) :
  occurs_before x y (sort_desc key l) -> (key y <= key x)%Q.
Proof.
  intros H.
  exact (sorted_occurs_before (key_desc key) x y _ (sort_desc_sorted key l) H).
Qed.

Lemma sort_desc_stable {A : Type} (key : A -> Q) (x y : A) (l : list A) :
  occurs_before x y (sort_desc key l) -> (key x == key y)%Q ->
  occurs_before x y l.
Proof.
  intros H E.
  apply (occurs_before_of_filter (same_key key (key x))).
  rewrite <- filter_sort_desc.
  apply occurs_before_filter; [| |exact H]; unfold same_key;
    apply Qeq_bool_iff; [reflexivity | now symmetry].
Qed.

(* ------------------------------------------------------------------ *)
(** ** Slices *)

Lemma py_slice_page_length {A : Type} (l : list A) (start size : Z) :
  0 <= start -> 0 <= size ->
  Z.of_nat (length (py_slice l start (start + size)))
  = Z.min size (Z.max 0 (Z.of_nat (length l) - start)).
Proof.
  intros H1 H2. unfold py_slice, clamp_index.
  destruct (Z.ltb_spec start 0); [lia|].
  destruct (Z.ltb_spec (start + size) 0); [lia|].
  rewrite length_firstn, length_skipn. lia.
Qed.

Lemma py_slice_parts {A : Type} (l : list A) (start stop : Z) :
  exists before after, l = (before ++ py_slice l start stop ++ after)%list.
Proof.
  unfold py_slice.
  set (lo := Z.to_nat (clamp_index _ start)).
  set (n := Z.to_nat _).
  exists (firstn lo l), (skipn n (skipn lo l)).
  now rewrite (firstn_skipn n), (firstn_skipn lo).
Qed.

Lemma occurs_before_slice {A : Type} (x y : A) (l : list A) (start stop : Z) :
  occurs_before x y (py_slice l start stop) -> occurs_before x y l.
Proof.
  intros H. destruct (py_slice_parts l start stop) as (b & a & E).
  rewrite E. now apply occurs_before_app_l, occurs_before_app_r.
Qed.

Lemma In_slice {A : Type} (x : A) (l : list A) (start stop : Z) :
  In x (py_slice l start stop) -> In x l.
Proof.
  intros H. destruct (py_slice_parts l start stop) as (b & a & E).
  rewrite E. apply in_or_app. right. apply in_or_app. now left.
Qed.

Lemma occurs_before_total {A : Type} (x y : A) (l : list A) :
  In x l -> In y l -> x <> y ->
  occurs_before x y l \/ occurs_before y x l.
Proof.
  intros Hx Hy Hne.
  apply in_split in Hx as (l1 & l2 & ->).
  apply in_app_or in Hy as [Hy | [Hy | Hy]]; [| congruence |].
  - right. apply in_split in Hy as (l3 & l4 & ->).
    exists l3, l4, l2. now rewrite <- app_assoc.
  - left. apply in_split in Hy as (l3 & l4 & ->).
    now exists l1, l3, l4.
Qed.

(* ------------------------------------------------------------------ *)
(** ** The result computed by [list_markets] *)

Lemma contains_empty (s : string) : PyStr.contains "" s = true.
Proof. now destruct s. Qed.

Lemma filter_twice {A : Type} (f g : A -> bool) (l : list A) :
  List.filter g (List.filter f l) = List.filter (fun x => f x && g x) l.
Proof.
  induction l as [|x l IH]; [reflexivity|]. simpl.
  destruct (f x); simpl; [|exact IH].
  destruct (g x); now rewrite IH.
Qed.

Lemma filter_all {A : Type} (f : A -> bool) (l : list A) :
  (forall x, f x = true) -> List.filter f l = l.
Proof.
  intros H. induction l as [|x l IH]; [reflexivity|].
  simpl. now rewrite H, IH.
Qed.

(** the list that [list_markets] sorts: the seed entries left by the
    filters *)
Lemma list_markets_result_filtered category sort_by page page_size search :
  category <> Some "" ->
  let filtered := List.filter
    (fun m => passes_category category m && passes_search search m)
    MOCK_MARKETS in
  list_markets_result category sort_by page page_size search
  = {| markets := py_slice (sort_desc (sort_key sort_by) filtered)
                    ((page - 1) * page_size)
                    ((page - 1) * page_size + page_size);
       total_count := Z.of_nat (length filtered);
       page := page; page_size := page_size |}.
Proof.
  intros Hc filtered. unfold list_markets_result.
  assert (E :
    (if PyStr.truthy_opt search
     then List.filter (search_matches (PyStr.lower (PyStr.format_opt search)))
            (if PyStr.truthy_opt category
             then List.filter (category_matches (PyStr.format_opt category))
                    MOCK_MARKETS
             else MOCK_MARKETS)
     else (if PyStr.truthy_opt category
           then List.filter (category_matches (PyStr.format_opt category))
                  MOCK_MARKETS
           else MOCK_MARKETS)) = filtered).
  { subst filtered.
    assert (Ec :
      (if PyStr.truthy_opt category
       then List.filter (category_matches (PyStr.format_opt category))
              MOCK_MARKETS
       else MOCK_MARKETS)
      = List.filter (passes_category category) MOCK_MARKETS).
    { destruct category as [[|c s]|]; simpl.
      - congruence.
      - reflexivity.
      - reflexivity. }
    rewrite Ec.
    destruct search as [[|c s]|]; simpl PyStr.truthy_opt; cbv iota.
    - rewrite <- filter_twice. symmetry. apply filter_all.
      intros m. simpl. now rewrite contains_empty.
    - now rewrite filter_twice.
    - rewrite <- filter_twice. symmetry. now apply filter_all. }
  cbv zeta. rewrite E. now rewrite sort_desc_length.
Qed.

(** on the computing path [total_count] is the number of matching seed
    markets, whatever the page *)
Lemma list_markets_result_total_count category sort_by page page_size search :
  category <> Some "" ->
  total_count (list_markets_result category sort_by page page_size search)
  = matching_count category search.
Proof.
  intros Hc. now rewrite list_markets_result_filtered.
Qed.

(** on the computing path the page has the length of the formula *)
Lemma list_markets_result_page_length category sort_by page page_size search :
  1 <= page -> 1 <= page_size ->
  let r := list_markets_result category sort_by page page_size search in
  Z.of_nat (length (markets r))
  = page_length (total_count r) page page_size.
Proof.
  intros Hp Hs. unfold list_markets_result, page_length. cbv zeta. simpl.
  apply py_slice_page_length; nia.
Qed.

Lemma list_markets_result_In category sort_by page page_size search m :
  In m (markets (list_markets_result category sort_by page page_size search))
  -> In m MOCK_MARKETS.
Proof.
  unfold list_markets_result. cbv zeta. cbn [markets]. intros H.
  apply In_slice, sort_desc_In in H.
  destruct (PyStr.truthy_opt search);
    [apply List.filter_In in H as [H _]|];
    (destruct (PyStr.truthy_opt category);
       [apply List.filter_In in H as [H _]|]); exact H.
Qed.

(** a name that [sort_map] does not know selects [volume_24h_usd] *)
Lemma sort_key_unrecognized (sort_by : string) :
  ~ In sort_by sort_names -> sort_key sort_by = volume_24h_usd.
Proof.
  intros Hn. unfold sort_key, sort_map.
  repeat match goal with
  | |- context [String.eqb sort_by ?s] =>
      destruct (String.eqb_spec sort_by s) as [->|_];
      [exfalso; apply Hn; simpl; tauto|]
  end.
  reflexivity.
Qed.

(** on the computing path a page past the last entry is empty *)
Lemma list_markets_result_page_beyond category sort_by page page_size search :
  1 <= page -> 1 <= page_size ->
  let r := list_markets_result category sort_by page page_size search in
  total_count r <= (page - 1) * page_size -> markets r = [].
Proof.
  intros Hp Hs r Hb.
  pose proof (list_markets_result_page_length category sort_by page page_size
                search Hp Hs) as H.
  cbv zeta in H. subst r. unfold page_length in H.
  apply length_zero_iff_nil. lia.
Qed.

(** on the computing path the page is in descending order of the selected
    field, and entries with equal values are in seed order *)
Lemma list_markets_result_sorted category sort_by page page_size search x y :
  let r := list_markets_result category sort_by page page_size search in
  occurs_before x y (markets r) ->
  (sort_key sort_by y <= sort_key sort_by x)%Q
  /\ ((sort_key sort_by x == sort_key sort_by y)%Q ->
      occurs_before x y MOCK_MARKETS).
Proof.
  unfold list_markets_result. cbv zeta. cbn [markets]. intros H.
  apply occurs_before_slice in H. split.
  - exact (sort_desc_descending _ _ _ _ H).
  - intros E. apply (sort_desc_stable _ _ _ _ H) in E.
    destruct (PyStr.truthy_opt search);
      [apply occurs_before_of_filter in E|];
      (destruct (PyStr.truthy_opt category);
         [apply occurs_before_of_filter in E|]); exact E.
Qed.

(* ------------------------------------------------------------------ *)
(** ** Cache keys *)

Lemma prefix_app (s t : string) : String.prefix s (s +:+ t) = true.
Proof.
  induction s as [|c s IH]; simpl; [now destruct t|].
  destruct (ascii_dec c c); [exact IH | congruence].
Qed.

Lemma contains_prefix (q s : string) :
  String.prefix q s = true -> PyStr.contains q s = true.
Proof.
  intros H. destruct s as [|c s].
  - destruct q; [reflexivity | discriminate].
  - cbn [PyStr.contains]. now rewrite H.
Qed.

Lemma contains_app (s a b : string) :
  PyStr.contains s (a +:+ s +:+ b) = true.
Proof.
  induction a as [|c a IH].
  - change (PyStr.contains s (s +:+ b) = true).
    apply contains_prefix, prefix_app.
  - change (PyStr.contains s (String c (a +:+ s +:+ b)) = true).
    cbn [PyStr.contains]. rewrite IH. apply orb_true_r.
Qed.

Lemma market_key_inj (id id' : Z) :
  "market:" +:+ pretty id = "market:" +:+ pretty id' -> id = id'.
Proof.
  intros H. simpl in H. injection H as H. now apply pretty_Z_inj in H.
Qed.

Lemma markets_key_not_market category sort_by page page_size search (id : Z) :
  markets_cache_key category sort_by page page_size search
  <> "market:" +:+ pretty id.
Proof. unfold markets_cache_key. simpl. discriminate. Qed.

Lemma hot_key_not_market (limit id : Z) :
  "hot:" +:+ pretty limit <> "market:" +:+ pretty id.
Proof. simpl. discriminate. Qed.

Lemma pending_key_not_market (s : string) (id : Z) :
  "pending_meta:" +:+ s <> "market:" +:+ pretty id.
Proof. simpl. discriminate. Qed.

(* ------------------------------------------------------------------ *)
(** ** What the handlers do to the cache *)

Section Reachable.
Context (cfg : Config) {G : RandomGen}.

Lemma mapM_mock_trade_cache (id : Z) (l : list Z) (w : World) :
  cache (snd (mapM (mock_trade id) l w)) = cache w.
Proof.
  revert w. induction l as [|i l IH]; intros w; [reflexivity|].
  simpl. unfold bind at 1. simpl. unfold bind at 1.
  destruct (mapM _ l _) as [ys w'] eqn:E. simpl.
  change w' with (snd (ys, w')). rewrite <- E, IH. reflexivity.
Qed.

Lemma candle_loop_cache now step (l : list Z) price acc (w : World) :
  cache (snd (candle_loop now step l price acc w)) = cache w.
Proof.
  revert price acc w. induction l as [|i l IH]; intros price acc w;
    [reflexivity|].
  simpl. unfold bind, random_randint, random_uniform.
  destruct (rng_randint (-200) 200 (rng w)) as [delta s1]. simpl.
  destruct (rng_randint 0 100 s1) as [up s2]. simpl.
  destruct (rng_randint 0 100 s2) as [down s3]. simpl.
  destruct (rng_uniform 10000 200000 s3) as [vol s4]. simpl.
  now rewrite IH.
Qed.

(** a lookup leaves the cache as it is *)
Lemma cache_get_then (k : string) (w : World) :
  exists v w', cache_get cfg k w = (v, w') /\ cache w' = cache w
               /\ v = fst (cache_get cfg k w).
Proof.
  destruct (cache_get cfg k w) as [v w'] eqn:E. exists v, w'.
  repeat split. change w' with (snd (v, w')). rewrite <- E.
  apply cache_get_keeps_cache.
Qed.

(** a request leaves the cache as it is or adds its one entry *)
Lemma handle_cache (r : Request) (w : World) :
  cache (snd (handle cfg r w)) = cache w
  \/ exists k ts v,
       cache_write r k v
       /\ cache (snd (handle cfg r w)) = <[k := (ts, v)]> (cache w).
Proof.
  remember (cache (snd (handle cfg r w))) as c eqn:Ec.
  revert Ec. unfold handle.
  destruct (valid_request r) eqn:Hv; [|intros ->; now left].
  destruct r as [|category sort_by page page_size search|limit|id
                 |id limit before_ts|id interval limit|req];
    cbn [dispatch]; unfold bind at 1.
  - intros ->. now left.
  - destruct (truthy (fst (cache_get cfg
      (markets_cache_key category sort_by page page_size search) w))) eqn:E.
    + rewrite (list_markets_hit _ _ _ _ _ _ _ E).
      destruct (cache_get_then
        (markets_cache_key category sort_by page page_size search) w)
        as (v & w' & -> & Hc & _). intros ->. now left.
    + rewrite (list_markets_miss _ _ _ _ _ _ _ E).
      rewrite cache_set_run. cbn [snd ret cache].
      rewrite cache_get_keeps_cache. intros ->.
      right. eexists _, _, _. split; [|reflexivity].
      simpl in Hv. constructor; lia.
  - destruct (truthy (fst (cache_get cfg ("hot:" +:+ pretty limit) w))) eqn:E.
    + rewrite (hot_markets_hit _ _ _ E).
      destruct (cache_get_then ("hot:" +:+ pretty limit) w)
        as (v & w' & -> & Hc & _). intros ->. now left.
    + rewrite (hot_markets_miss _ _ _ E).
      rewrite cache_set_run. cbn [snd ret cache].
      rewrite cache_get_keeps_cache. intros ->.
      right. eexists _, _, _. split; [|reflexivity]. constructor.
  - destruct (truthy (fst (cache_get cfg ("market:" +:+ pretty id) w))) eqn:E.
    + rewrite (get_market_hit _ _ _ E). cbn [snd ret].
      rewrite cache_get_keeps_cache. intros ->. now left.
    + rewrite (get_market_miss _ _ _ E).
      destruct (truthy (find_market id)) eqn:Ef; cbn [snd ret].
      * rewrite cache_set_run. cbn [snd cache].
        rewrite cache_get_keeps_cache. intros ->.
        right. eexists _, _, _. split; [|reflexivity]. now constructor.
      * rewrite cache_get_keeps_cache. intros ->. now left.
  - unfold get_market_trades.
    destruct (mapM _ _ w) as [l w'] eqn:E. cbn [snd ret].
    change w' with (snd (l, w')). rewrite <- E.
    rewrite mapM_mock_trade_cache. intros ->. now left.
  - unfold get_price_history, bind. simpl.
    destruct (candle_loop _ _ _ _ _ _) as [cs w'] eqn:E. simpl.
    change w' with (snd (cs, w')). rewrite <- E.
    rewrite candle_loop_cache. simpl. intros ->. now left.
  - intros ->. right. eexists _, _, _. split; [|reflexivity]. constructor.
Qed.

Lemma market_entries_ok_handle (r : Request) (w : World) :
  market_entries_ok w -> market_entries_ok (snd (handle cfg r w)).
Proof.
  intros H id ts v.
  destruct (handle_cache r w) as [-> | (k & ts' & v' & Hw & ->)];
    [apply H|].
  destruct (decide (k = "market:" +:+ pretty id)) as [Ek|Hne].
  - rewrite Ek, lookup_insert_eq. intros [= <- <-].
    destruct Hw as [c s p ps q Hp Hs|limit|id' Ht|req id' meta].
    + exfalso. now apply markets_key_not_market in Ek.
    + exfalso. now apply hot_key_not_market in Ek.
    + apply market_key_inj in Ek as ->. now split.
    + exfalso. now apply pending_key_not_market in Ek.
  - rewrite lookup_insert_ne by exact Hne. apply H.
Qed.

(** in every world the service reaches, the entries under the keys of
    [get_market] are the seed records *)
Lemma reachable_market_entries_ok (w : World) :
  reachable cfg w -> market_entries_ok w.
Proof.
  induction 1 as [w Hw | w r _ IH].
  - intros id ts v H. unfold initial in Hw. rewrite Hw in H.
    now rewrite lookup_empty in H.
  - now apply market_entries_ok_handle.
Qed.

Lemma listing_entries_ok_handle (r : Request) (w : World) :
  listing_entries_ok w -> listing_entries_ok (snd (handle cfg r w)).
Proof.
  intros H c s p ps q ts v.
  destruct (handle_cache r w) as [-> | (k & ts' & v' & Hw & ->)];
    [apply H|].
  destruct (decide (k = markets_cache_key c s p ps q)) as [Ek|Hne].
  - rewrite Ek, lookup_insert_eq. intros [= <- <-].
    destruct Hw as [c' s' p' ps' q' Hp Hs|limit|id Ht|req id meta].
    + now exists c', s', p', ps', q'.
    + exfalso. revert Ek. unfold markets_cache_key. simpl. discriminate.
    + exfalso. symmetry in Ek. now apply markets_key_not_market in Ek.
    + exfalso. revert Ek. unfold markets_cache_key. simpl. discriminate.
  - rewrite lookup_insert_ne by exact Hne. apply H.
Qed.

Lemma reachable_listing_entries_ok (w : World) :
  reachable cfg w -> listing_entries_ok w.
Proof.
  induction 1 as [w Hw | w r _ IH].
  - intros c s p ps q ts v H. unfold initial in Hw. rewrite Hw in H.
    now rewrite lookup_empty in H.
  - now apply listing_entries_ok_handle.
Qed.

(** in every world the service reaches, a valid listing request is answered
    with the result computed for some valid request that builds the same
    cache key; the page it returns has the length the formula gives for
    the page number and page size the answer itself carries *)
Lemma reachable_listing_answer (w : World) category sort_by page page_size
    search :
  reachable cfg w -> 1 <= page -> 1 <= page_size <= 100 ->
  exists category' sort_by' page' page_size' search',
    1 <= page' /\ 1 <= page_size' <= 100
    /\ markets_cache_key category' sort_by' page' page_size' search'
       = markets_cache_key category sort_by page page_size search
    /\ fst (list_markets cfg category sort_by page page_size search w)
       = PSearchResult
           (list_markets_result category' sort_by' page' page_size' search').
Proof.
  intros Hr Hp Hs. apply reachable_listing_entries_ok in Hr.
  destruct (truthy (fst (cache_get cfg
    (markets_cache_key category sort_by page page_size search) w))) eqn:E.
  - rewrite (list_markets_hit _ _ _ _ _ _ _ E).
    destruct (cache_get_cases cfg
      (markets_cache_key category sort_by page page_size search) w)
      as [En|[ts En]].
    + rewrite En in E. discriminate.
    + apply Hr in En as (c & s & p & ps & q & H1 & H2 & H3 & H4).
      exists c, s, p, ps, q. auto.
  - rewrite (list_markets_miss _ _ _ _ _ _ _ E).
    exists category, sort_by, page, page_size, search. auto.
Qed.

Lemma reachable_listing_page_length (w : World) category sort_by (p ps : Z)
    search :
  reachable cfg w -> 1 <= p -> 1 <= ps <= 100 ->
  exists r,
    fst (list_markets cfg category sort_by p ps search w) = PSearchResult r
    /\ Z.of_nat (length (markets r))
       = page_length (total_count r) (page r) (page_size r).
Proof.
  intros Hr Hp Hs.
  destruct (reachable_listing_answer w category sort_by p ps search
              Hr Hp Hs) as (c & s & p' & ps' & q & H1 & H2 & _ & E).
  eexists. split; [exact E|].
  exact (list_markets_result_page_length c s p' ps' q H1 (proj1 H2)).
Qed.

Lemma find_market_absent (id : Z) :
  (forall m, In m MOCK_MARKETS -> market_id m <> id) ->
  find_market id = PNone.
Proof.
  intros H. unfold find_market.
  destruct (List.find _ MOCK_MARKETS) as [m|] eqn:E; [|reflexivity].
  apply List.find_some in E as [Hin Hid].
  apply Z.eqb_eq in Hid. now apply H in Hin.
Qed.

Lemma find_market_present (m : Market) :
  In m MOCK_MARKETS -> find_market (market_id m) = PMarket m.
Proof.
  intros [<-|[<-|[<-|[<-|[]]]]]; reflexivity.
Qed.

(** C6. In every world the service reaches, [GET /markets/{id}] for an id
    that no seed market has is answered with the 404 error whose message
    names the id, and for the id of a seed market with that seed record. *)
Theorem get_market_found_or_404 (w : World) (id : Z) :
  reachable cfg w ->
  ((forall m, In m MOCK_MARKETS -> market_id m <> id) ->
     fst (handle cfg (GetMarket id) w)
     = RError {| status_code := 404;
                 detail := "Market " +:+ pretty id +:+ " not found" |}
     /\ PyStr.contains (pretty id)
          ("Market " +:+ pretty id +:+ " not found") = true)
  /\ (forall m, In m MOCK_MARKETS -> market_id m = id ->
       fst (handle cfg (GetMarket id) w) = RObject (PMarket m)).
Proof.
  intros Hr. apply reachable_market_entries_ok in Hr.
  assert (Hcached :
    truthy (fst (cache_get cfg ("market:" +:+ pretty id) w)) = true ->
    fst (cache_get cfg ("market:" +:+ pretty id) w) = find_market id).
  { intros Ht.
    destruct (cache_get_cases cfg ("market:" +:+ pretty id) w) as [E|[ts E]].
    - rewrite E in Ht. discriminate.
    - now apply Hr in E as [E _]. }
  unfold handle. simpl. unfold bind at 1 2.
  destruct (truthy (fst (cache_get cfg ("market:" +:+ pretty id) w))) eqn:E.
  - specialize (Hcached eq_refl).
    rewrite (get_market_hit _ _ _ E). simpl. rewrite Hcached. split.
    + intros Habs. apply find_market_absent in Habs.
      rewrite Hcached, Habs in E. discriminate.
    + intros m Hin <-. now rewrite (find_market_present _ Hin).
  - rewrite (get_market_miss _ _ _ E). split.
    + intros Habs. rewrite (find_market_absent _ Habs). simpl.
      split; [reflexivity|].
      exact (contains_app (pretty id) "Market " " not found").
    + intros m Hin <-. now rewrite (find_market_present _ Hin).
Qed.

End Reachable.

(* ------------------------------------------------------------------ *)
(** ** Trades *)

Section Trades.
Context {G : RandomGen}.




End Trades.

(* ------------------------------------------------------------------ *)
(** ** Price history *)

Lemma py_range_down_countdown (n : Z) :
  py_range_down n = countdown n (Z.to_nat n).
Proof.
  unfold py_range_down.
  enough (H : forall m a,
    List.map (fun k => n - Z.of_nat k) (seq a m)
    = countdown (n - Z.of_nat a) m).
  { rewrite H. f_equal. lia. }
  induction m as [|m IH]; intros a; [reflexivity|].
  simpl. rewrite IH. do 2 f_equal. lia.
Qed.

Lemma intervals_table (interval : string) :
  let step := default 3600 (intervals interval) in
  (interval = "1m" -> step = 60)
  /\ (interval = "5m" -> step = 300)
  /\ (interval = "15m" -> step = 900)
  /\ (interval = "1h" -> step = 3600)
  /\ (interval = "4h" -> step = 14400)
  /\ (interval = "1d" -> step = 86400)
  /\ (~ In interval interval_names -> step = 3600).
Proof.
  cbv zeta. repeat split; try (intros ->; reflexivity).
  intros Hn. unfold intervals.
  repeat match goal with
  | |- context [String.eqb interval ?s] =>
      destruct (String.eqb_spec interval s) as [->|_];
      [exfalso; apply Hn; simpl; tauto|]
  end.
  reflexivity.
Qed.

Section PriceHistory.
Context {G : RandomGen}.

(** the values of the candles depend on the generator state, the opening
    price and the number of indices only *)
Lemma candle_loop_values (l1 l2 : list Z) now1 step1 now2 step2 price
    (acc1 acc2 : list Candle) (w1 w2 : World) :
  length l1 = length l2 -> rng w1 = rng w2 ->
  List.map candle_values acc1 = List.map candle_values acc2 ->
  List.map candle_values (fst (candle_loop now1 step1 l1 price acc1 w1))
  = List.map candle_values (fst (candle_loop now2 step2 l2 price acc2 w2)).
Proof.
  revert l2 price acc1 acc2 w1 w2.
  induction l1 as [|i1 l1 IH]; intros [|i2 l2] price acc1 acc2 w1 w2 Hl Hr Ha;
    try discriminate; [exact Ha|].
  simpl. unfold bind, random_randint, random_uniform. rewrite <- Hr.
  destruct (rng_randint (-200) 200 (rng w1)) as [delta s1]. simpl.
  destruct (rng_randint 0 100 s1) as [up s2]. simpl.
  destruct (rng_randint 0 100 s2) as [down s3]. simpl.
  destruct (rng_uniform 10000 200000 s3) as [vol s4]. simpl.
  apply IH.
  - now injection Hl.
  - reflexivity.
  - rewrite !List.map_app, Ha. reflexivity.
Qed.

(** C7. Two calls of the price-history operation with the same market id
    and limit produce candle sequences that agree in open, high, low,
    close and volume, whatever the clock, the state of the generator
    before the calls, and the interval: the values are a function of the
    market id and the limit. *)
Theorem price_history_reproducible (market_id limit : Z)
    (interval1 interval2 : string) (w1 w2 : World) :
  List.map candle_values
    (candles (fst (get_price_history market_id interval1 limit w1)))
  = List.map candle_values
      (candles (fst (get_price_history market_id interval2 limit w2))).
Proof.
  unfold get_price_history, bind. simpl.
  destruct (candle_loop _ _ _ _ _ _) as [cs1 w1'] eqn:E1.
  destruct (candle_loop _ _ _ _ _ _) as [cs2 w2'] eqn:E2 in |- *.
  simpl. change cs1 with (fst (cs1, w1')). change cs2 with (fst (cs2, w2')).
  rewrite <- E1, <- E2. now apply candle_loop_values.
Qed.

Lemma candle_loop_walk `{!RandomGenRanges G} (n : nat) now step i price
    (acc : list Candle) (w : World) :
  exists cs,
    fst (candle_loop now step (countdown i n) price acc w) = (acc ++ cs)%list
    /\ length cs = n
    /\ price_walk now step i price cs.
Proof.
  revert i price acc w. induction n as [|n IH]; intros i price acc w.
  - exists []. simpl. now rewrite app_nil_r.
  - simpl. unfold bind, random_randint, random_uniform.
    pose proof (randint_range (-200) 200 (rng w) ltac:(lia)) as Hd.
    destruct (rng_randint (-200) 200 (rng w)) as [delta s1]. simpl in *.
    pose proof (randint_range 0 100 s1 ltac:(lia)) as Hu.
    destruct (rng_randint 0 100 s1) as [up s2]. simpl in *.
    pose proof (randint_range 0 100 s2 ltac:(lia)) as Hw.
    destruct (rng_randint 0 100 s2) as [down s3]. simpl in *.
    pose proof (uniform_range 10000 200000 s3 ltac:(discriminate)) as Hv.
    destruct (rng_uniform 10000 200000 s3) as [vol s4]. simpl in *.
    match goal with
    | |- context [candle_loop now step _ ?p (acc ++ [?c])%list ?w'] =>
        destruct (IH (i - 1) p (acc ++ [c])%list w') as (cs & E & Hlen & Hwalk);
        exists (c :: cs)
    end.
    split; [|split].
    + rewrite E, <- app_assoc. reflexivity.
    + simpl. now rewrite Hlen.
    + simpl. repeat split; try tauto; eauto.
Qed.

(** the loop appends the candles drawn from the generator *)
Lemma candle_loop_drawn (n : nat) now step i price (acc : list Candle)
    (w : World) :
  fst (candle_loop now step (countdown i n) price acc w)
  = (acc ++ drawn_walk now step i price n (rng w))%list.
Proof.
  revert i price acc w. induction n as [|n IH]; intros i price acc w.
  - simpl. now rewrite app_nil_r.
  - simpl. unfold bind, random_randint, random_uniform.
    destruct (rng_randint (-200) 200 (rng w)) as [delta s1]. simpl.
    destruct (rng_randint 0 100 s1) as [up s2]. simpl.
    destruct (rng_randint 0 100 s2) as [down s3]. simpl.
    destruct (rng_uniform 10000 200000 s3) as [vol s4]. simpl.
    rewrite IH, <- app_assoc. reflexivity.
Qed.

(** C8. The candles of a price-history request are the candles drawn from
    the generator seeded with the market id, starting at the price 5000:
    for each candle a [randint(-200, 200)] for the step, a
    [randint(0, 100)] for the high, a [randint(0, 100)] for the low and a
    [uniform(10000, 200000)] for the volume, in this order.  With a
    generator that keeps to its ranges they form the price walk: each
    close is the open plus a step in [-200, 200], clamped to [100, 9900];
    high and low exceed the larger and the smaller of open and close by an
    amount in [0, 100]; the volume lies in [10000, 200000]; the next
    candle opens at that close; the candle of index [i], for [i] from
    [limit] down to 1, is stamped [now - i * step], with the step of the
    interval table, and 3600 for an interval that is not in it. *)
Theorem price_history_walk `{!RandomGenRanges G} (market_id : Z)
    (interval : string) (limit : Z) (w : World) :
  let h := fst (get_price_history market_id interval limit w) in
  let now := int_of_float (wall w (ticks w)) in
  exists step,
    length (candles h) = Z.to_nat limit
    /\ candles h
       = drawn_walk now step limit 5000 (Z.to_nat limit) (rng_seed market_id)
    /\ price_walk now step limit 5000 (candles h)
    /\ (interval = "1m" -> step = 60)
    /\ (interval = "5m" -> step = 300)
    /\ (interval = "15m" -> step = 900)
    /\ (interval = "1h" -> step = 3600)
    /\ (interval = "4h" -> step = 14400)
    /\ (interval = "1d" -> step = 86400)
    /\ (~ In interval interval_names -> step = 3600).
Proof.
  cbv zeta. exists (default 3600 (intervals interval)).
  split; [|split; [|split; [|apply intervals_table]]];
    unfold get_price_history, bind; simpl;
    destruct (candle_loop _ _ _ _ _ _) as [cs w'] eqn:E; simpl;
    change cs with (fst (cs, w')); rewrite <- E;
    rewrite py_range_down_countdown.
  2: { now rewrite candle_loop_drawn. }
  all: match goal with
    | |- context [candle_loop ?now ?step (countdown ?i ?n) ?p [] ?w0] =>
        destruct (candle_loop_walk n now step i p [] w0)
          as (cs' & E' & Hl & Hw)
    end;
    rewrite E'; simpl; assumption.
Qed.

End PriceHistory.

(* ------------------------------------------------------------------ *)
(** ** The image URL of a submission *)

(** what [resolve_image_url] yields in each case of its two inputs *)
Lemma resolve_image_url_cases (cfg : Config) (req : CreateMarketRequest) :
  match req_image_ipfs_hash req, req_image_url req with
  | Some (String c h), Some (String d u) =>
      resolve_image_url cfg req = String d u
  | Some (String c h), _ =>
      resolve_image_url cfg req = IPFS_GATEWAY cfg +:+ String c h
  | _, _ => resolve_image_url cfg req = ""
  end.
Proof.
  unfold resolve_image_url.
  destruct (req_image_ipfs_hash req) as [[|c h]|],
           (req_image_url req) as [[|d u]|]; reflexivity.
Qed.

(** C1. A submission with an explicit image URL and no IPFS hash is stored
    with the empty string as its image URL: the explicit URL is lost. *)
Theorem explicit_image_url_dropped :
  req_image_url url_only_request = Some "https://example.com/rain.png"
  /\ req_image_ipfs_hash url_only_request = None
  /\ resolve_image_url default_config url_only_request = ""
  /\ exists ts m,
       cache (snd (handle default_config (PostMarkets url_only_request)
                     (start_world 1)))
         !! "pending_meta:vp-1700000000" = Some (ts, PMeta m)
       /\ meta_image_url m = "".
Proof.
  repeat split. vm_compute. eexists _, _. split; reflexivity.
Qed.

(* ------------------------------------------------------------------ *)
(** ** Listings answered from the cache under a shared key *)

(** C3. After [GET /markets], the request [GET /markets?category=None]
    builds the same cache key and is answered with the cached, unfiltered
    listing: its [total_count] is 4, while no seed market passes the
    category filter. *)
Theorem total_count_from_shared_key :
  markets_cache_key (Some "None") "volume_24h" 1 20 None
  = markets_cache_key None "volume_24h" 1 20 None
  /\ fst (handle default_config
            (GetMarkets (Some "None") "volume_24h" 1 20 None)
            after_unfiltered_listing)
     = RObject (PSearchResult
         {| markets := [market_2; market_1; market_3; market_4];
            total_count := 4; page := 1; page_size := 20 |})
  /\ matching_count (Some "None") None = 0.
Proof. vm_compute. repeat split. Qed.

(** C4. After [GET /markets?sort_by=yes_price:1:1], a request for page 1 of
    size 1 that builds the same cache key is answered with the cached page
    of four markets, while the formula gives one.  After
    [GET /markets?category=None&page=2], the request [GET /markets?page=2]
    builds the same cache key and is answered with [total_count] 0, while
    its filters pass all four seed markets. *)
Theorem page_length_from_shared_key :
  (markets_cache_key None "yes_price" 1 1 (Some "1:20:None")
   = markets_cache_key None "yes_price:1:1" 1 20 None
   /\ fst (handle default_config
             (GetMarkets None "yes_price" 1 1 (Some "1:20:None"))
             after_odd_sort_listing)
      = RObject (PSearchResult
          {| markets := [market_2; market_1; market_3; market_4];
             total_count := 4; page := 1; page_size := 20 |})
   /\ page_length 4 1 1 = 1)
  /\ (markets_cache_key None "volume_24h" 2 20 None
      = markets_cache_key (Some "None") "volume_24h" 2 20 None
      /\ fst (handle default_config
                (GetMarkets None "volume_24h" 2 20 None)
                after_none_category_listing)
         = RObject (PSearchResult
             {| markets := []; total_count := 0; page := 2; page_size := 20 |})
      /\ matching_count None None = 4).
Proof. vm_compute. repeat split. Qed.

(** C5. After [GET /markets?sort_by=yes_price:1:1], a request sorted by
    [yes_price] that builds the same cache key is answered with the cached
    listing in volume order: market 2 comes before market 1, whose
    [yes_price_bps] is strictly greater. *)
Theorem order_from_shared_key :
  fst (handle default_config
         (GetMarkets None "yes_price" 1 1 (Some "1:20:None"))
         after_odd_sort_listing)
  = RObject (PSearchResult
      {| markets := [market_2; market_1; market_3; market_4];
         total_count := 4; page := 1; page_size := 20 |})
  /\ (sort_key "yes_price" market_2 < sort_key "yes_price" market_1)%Q.
Proof. vm_compute. split; reflexivity. Qed.

(* ------------------------------------------------------------------ *)
(** ** The handlers on concrete inputs *)

Lemma lcg_next_bound (s : Z) : 0 <= lcg_next s < 2147483648.
Proof. unfold lcg_next. apply Z.mod_pos_bound. lia. Qed.

Lemma lcg_ranges : RandomGenRanges lcg_gen.
Proof.
  split; simpl.
  - intros a b s Hab.
    pose proof (Z.mod_pos_bound (lcg_next s) (b - a + 1) ltac:(lia)). lia.
  - intros a b s Hab.
    pose proof (lcg_next_bound s) as Hs.
    set (f := (lcg_next s # 2147483648)%Q).
    assert (H0 : (0 <= f)%Q) by (unfold f, Qle; simpl; lia).
    assert (H1 : (f <= 1)%Q) by (unfold f, Qle; simpl; lia).
    split; nra.
Qed.

(** C2, counterexample to the claim as the specification words it. With
    the default time-to-live of 60 seconds, a store at the clock reading
    0.3 and a lookup at 60.3: less than 60 seconds have elapsed, the float
    subtraction gives 60.0, and the lookup reports absence. *)
Lemma fresh_entry_reported_absent :
  CACHE_TTL_SECONDS default_config = 60
  /\ seconds (wall early_world 0) = double_0_3
  /\ seconds (wall early_world 1) = double_60_3
  /\ (wall early_world 1 - wall early_world 0 < 60)%Q
  /\ (float_sub (wall early_world 1) (wall early_world 0) == 60)%Q
  /\ fst (cache_get default_config "k"
            (snd (cache_set "k" (PInt 7) early_world))) = PNone
  /\ fst (cache_get default_config "k"
            (snd (cache_set "k" (PInt 7) early_world))) <> PInt 7.
Proof. vm_compute. repeat split; discriminate. Qed.

Lemma cache_round_trip_witness :
  fst (cache_get default_config "k"
         (snd (cache_set "k" (PInt 7) (start_world 1)))) = PInt 7
  /\ fst (cache_get default_config "k"
            (snd (cache_set "k" (PInt 7) (start_world 60)))) = PNone
  /\ fst (cache_get default_config "k"
            (snd (cache_set "k" (PInt 7) (start_world 59)))) = PInt 7
  /\ fst (cache_get default_config "k"
            (snd (cache_set "k" (PInt 7) early_world))) = PNone.
Proof.
  split; [|split; [|split]].
  - apply (proj1 (cache_round_trip default_config "k" (PInt 7)
                    (start_world 1))).
    vm_compute. reflexivity.
  - apply (proj1 (proj2 (proj2 (cache_round_trip default_config "k" (PInt 7)
                                  (start_world 60))))).
    vm_compute. discriminate.
  - apply (proj2 (proj2 (proj2 (proj2
             (cache_round_trip default_config "k" (PInt 7)
                (start_world 59))))));
      vm_compute; try reflexivity; discriminate.
  - apply (proj1 (proj2 (cache_round_trip default_config "k" (PInt 7)
                           early_world))).
    vm_compute. discriminate.
Defined.

Lemma stored_none_is_absent_witness :
  fst (cache_get default_config "k"
         (snd (cache_set "k" PNone (start_world 1)))) = PNone
  /\ fst (cache_get default_config "k" (start_world 1)) = PNone
  /\ fst (hot_markets default_config 2
            (snd (cache_set "hot:2" (PMarkets []) (start_world 1))))
     = PMarkets [market_2; market_1].
Proof.
  split; [|split].
  - exact (proj1 (stored_none_is_absent default_config "k" (start_world 1))).
  - apply (proj1 (proj2 (stored_none_is_absent default_config "k"
                           (start_world 1)))).
    reflexivity.
  - apply (proj1 (proj1 (proj2 (proj2 (proj2 (proj2
      (stored_none_is_absent default_config "hot:2"
         (snd (cache_set "hot:2" (PMarkets []) (start_world 1))))))
      (wall (start_world 1) 0) (PMarkets []) eq_refl eq_refl)) 2 eq_refl)).
Defined.

Lemma get_market_found_or_404_witness :
  fst (handle default_config (GetMarket 999) after_unfiltered_listing)
  = RError {| status_code := 404; detail := "Market 999 not found" |}
  /\ fst (handle default_config (GetMarket 2) after_unfiltered_listing)
     = RObject (PMarket market_2).
Proof.
  assert (Hr : reachable default_config after_unfiltered_listing).
  { apply reachable_step, reachable_start. reflexivity. }
  split.
  - apply (get_market_found_or_404 default_config _ 999 Hr).
    intros m [<-|[<-|[<-|[<-|[]]]]]; discriminate.
  - apply (get_market_found_or_404 default_config _ 2 Hr).
    + simpl. tauto.
    + reflexivity.
Defined.


Lemma price_history_walk_witness :
  exists step,
    length (candles (fst (get_price_history 7 "2h" 3 (start_world 1)))) = 3%nat
    /\ candles (fst (get_price_history 7 "2h" 3 (start_world 1)))
       = @drawn_walk lcg_gen 1700000000 step 3 5000 3 (@rng_seed lcg_gen 7)
    /\ price_walk 1700000000 step 3 5000
         (candles (fst (get_price_history 7 "2h" 3 (start_world 1))))
    /\ step = 3600.
Proof.
  destruct (@price_history_walk lcg_gen lcg_ranges 7 "2h" 3 (start_world 1))
    as (step & Hlen & Hdrawn & Hwalk & _ & _ & _ & _ & _ & _ & Hstep).
  exists step. split; [exact Hlen|]. split; [exact Hdrawn|].
  split; [exact Hwalk|].
  apply Hstep. simpl. intros [H|[H|[H|[H|[H|[H|[]]]]]]]; discriminate.
Defined.

(* ------------------------------------------------------------------ *)
(** * Further properties of the handlers *)

(** ** The cache *)

Section CacheMore.
Context (cfg : Config) {G : RandomGen}.

(** X1. Storing under one key does not change what a lookup of another key
    returns: the lookup answers as it would have, had the clock merely been
    read once in between. *)
Theorem cache_set_other_key (k k' : string) (v : pyobj) (w : World) :
  k' <> k ->
  fst (cache_get cfg k' (snd (cache_set k v w)))
  = fst (cache_get cfg k' (snd (time_time w))).
Proof.
  intros Hne. rewrite cache_set_run. cbn [snd].
  destruct (cache w !! k') as [[ts v']|] eqn:E.
  - erewrite !cache_get_present; [reflexivity | exact E |].
    cbn [cache]. rewrite lookup_insert_ne by congruence. exact E.
  - rewrite !cache_get_absent; [reflexivity | exact E |].
    cbn [cache]. rewrite lookup_insert_ne by congruence. exact E.
Qed.

(** X2. A lookup that finds its entry expired reports absence and leaves
    the entry in the dictionary: nothing is purged. *)
Theorem expired_entry_stays (k : string) (ts : Time) (v : pyobj) (w : World) :
  cache w !! k = Some (ts, v) ->
  (inject_Z (CACHE_TTL_SECONDS cfg) <= wall w (ticks w) - ts)%Q ->
  fst (cache_get cfg k w) = PNone
  /\ cache (snd (cache_get cfg k w)) !! k = Some (ts, v)
  /\ cache (snd (cache_get cfg k w)) = cache w.
Proof.
  intros E Hold. rewrite (cache_get_present _ _ _ _ _ E). cbn [fst snd].
  rewrite (stale_by_clock _ _ _ Hold). cbn [cache time_time snd].
  auto.
Qed.

(** X3. With a time-to-live of zero or less, and a clock that does not run
    backwards between the store and the lookup, a stored value is never
    served. *)
Theorem nonpositive_ttl_never_serves (k : string) (v : pyobj) (w : World) :
  CACHE_TTL_SECONDS cfg <= 0 ->
  (wall w (ticks w) <= wall w (S (ticks w)))%Q ->
  fst (cache_get cfg k (snd (cache_set k v w))) = PNone.
Proof.
  intros Httl Hclock. rewrite cache_set_run. cbn [snd].
  erewrite cache_get_present by (cbn [cache]; apply lookup_insert_eq).
  cbn [fst wall ticks].
  assert (H : Qlt_bool (float_sub (wall w (S (ticks w))) (wall w (ticks w)))
                (inject_Z (CACHE_TTL_SECONDS cfg)) = false).
  { apply stale_by_clock.
    assert (Hz : (inject_Z (CACHE_TTL_SECONDS cfg) <= 0)%Q).
    { unfold Qle. simpl. lia. }
    lra. }
  now rewrite H.
Qed.

(** X4. No request removes or replaces the entry of a key other than the
    one it writes: after a request every key that had an entry still has
    one, and at most one key has a different entry than before. *)
Theorem cache_only_grows (r : Request) (w : World) :
  (forall k, is_Some (cache w !! k) ->
             is_Some (cache (snd (handle cfg r w)) !! k))
  /\ (exists k0, forall k, k <> k0 ->
         cache (snd (handle cfg r w)) !! k = cache w !! k).
Proof.
  destruct (handle_cache cfg r w) as [-> | (k0 & ts & v & _ & ->)].
  - split; [auto|]. now exists "".
  - split.
    + intros k Hk. destruct (decide (k0 = k)) as [->|Hne].
      * rewrite lookup_insert_eq. eauto.
      * now rewrite lookup_insert_ne.
    + exists k0. intros k Hne. now rewrite lookup_insert_ne.
Qed.

End CacheMore.

(* ------------------------------------------------------------------ *)
(** ** Listings *)

Lemma firstn_min_length {A : Type} (n : nat) (l : list A) :
  firstn (Nat.min n (length l)) l = firstn n l.
Proof.
  destruct (Nat.le_ge_cases n (length l)) as [H|H].
  - now rewrite Nat.min_l.
  - rewrite Nat.min_r by exact H.
    now rewrite !firstn_all2 by lia.
Qed.

Lemma firstn_plus {A : Type} (a b : nat) (l : list A) :
  firstn (a + b) l = (firstn a l ++ firstn b (skipn a l))%list.
Proof.
  revert l. induction a as [|a IH]; intros [|x l]; simpl;
    try reflexivity.
  - now rewrite firstn_nil.
  - now rewrite IH.
Qed.

(** a slice with bounds that are not negative takes and drops *)
Lemma py_slice_take_drop {A : Type} (l : list A) (a b : Z) :
  0 <= a -> 0 <= b ->
  py_slice l a (a + b) = firstn (Z.to_nat b) (skipn (Z.to_nat a) l).
Proof.
  intros Ha Hb. unfold py_slice, clamp_index.
  destruct (Z.ltb_spec a 0); [lia|].
  destruct (Z.ltb_spec (a + b) 0); [lia|].
  destruct (Z.le_gt_cases (Z.of_nat (length l)) a) as [Hlen|Hlen].
  - rewrite (skipn_all2 l (n := Z.to_nat a)) by lia.
    rewrite (skipn_all2 l (n := Z.to_nat (Z.min a _))) by lia.
    now rewrite !firstn_nil.
  - replace (Z.min a (Z.of_nat (length l))) with a by lia.
    rewrite <- (firstn_min_length (Z.to_nat b)).
    f_equal. rewrite length_skipn. lia.
Qed.

Lemma py_slice_all {A : Type} (l : list A) (n : Z) :
  Z.of_nat (length l) <= n -> py_slice l 0 n = l.
Proof.
  intros H. change n with (0 + n). rewrite py_slice_take_drop by lia.
  simpl. apply firstn_all2. lia.
Qed.

Lemma filter_length_le {A : Type} (f : A -> bool) (l : list A) :
  (length (List.filter f l) <= length l)%nat.
Proof.
  induction l as [|x l IH]; simpl; [lia|].
  destruct (f x); simpl; lia.
Qed.

(** every page is a slice of the listing *)
Lemma list_markets_result_markets category sort_by page page_size search :
  markets (list_markets_result category sort_by page page_size search)
  = py_slice (listing category sort_by search)
      ((page - 1) * page_size) ((page - 1) * page_size + page_size).
Proof.
  unfold listing, list_markets_result. cbv zeta. cbn [markets].
  f_equal. symmetry.
  change ((1 - 1) * Z.of_nat (length MOCK_MARKETS)) with 0.
  apply py_slice_all. rewrite sort_desc_length.
  match goal with
  | |- Z.of_nat (length ?l) <= _ =>
      enough (length l <= length MOCK_MARKETS)%nat by lia
  end.
  destruct (PyStr.truthy_opt search), (PyStr.truthy_opt category);
    first [ apply Nat.le_refl
          | apply filter_length_le
          | eapply Nat.le_trans; apply filter_length_le ].
Qed.

Lemma listing_filtered category sort_by search :
  category <> Some "" ->
  listing category sort_by search
  = sort_desc (sort_key sort_by)
      (List.filter
         (fun m => passes_category category m && passes_search search m)
         MOCK_MARKETS).
Proof.
  intros Hc. unfold listing.
  rewrite list_markets_result_filtered by exact Hc. cbn [markets].
  change ((1 - 1) * Z.of_nat (length MOCK_MARKETS)) with 0.
  apply py_slice_all. rewrite sort_desc_length.
  pose proof (filter_length_le
    (fun m => passes_category category m && passes_search search m)
    MOCK_MARKETS). lia.
Qed.

Lemma NoDup_MOCK_MARKETS : List.NoDup MOCK_MARKETS.
Proof.
  apply (List.NoDup_map_inv market_id). simpl.
  repeat constructor; simpl; intuition discriminate.
Qed.

(** X5. The listing (what the pages are cut from) holds exactly the seed
    markets that pass the category filter and the search filter, each
    once, for a category other than the empty string. *)
Theorem listing_is_the_matching_markets category sort_by search :
  category <> Some "" ->
  List.NoDup (listing category sort_by search)
  /\ forall m, In m (listing category sort_by search)
       <-> In m MOCK_MARKETS
           /\ passes_category category m = true
           /\ passes_search search m = true.
Proof.
  intros Hc. rewrite listing_filtered by exact Hc. split.
  - apply (Permutation_NoDup (Permutation_sym (sort_desc_perm _ _))).
    apply List.NoDup_filter, NoDup_MOCK_MARKETS.
  - intros m. rewrite sort_desc_In, List.filter_In, andb_true_iff. tauto.
Qed.

(** X6. Pages tile the listing: for a page size of at least one, pages
    1 to [n] put one after the other are the first [n * page_size] markets
    of the listing; no market is skipped or repeated between pages. *)
Theorem pages_tile_the_listing category sort_by search (size : Z) (n : nat) :
  1 <= size ->
  concat (List.map
            (fun p => markets (list_markets_result category sort_by
                                 (Z.of_nat p) size search))
            (seq 1 n))
  = firstn (n * Z.to_nat size) (listing category sort_by search).
Proof.
  intros Hs. induction n as [|n IH]; [reflexivity|].
  rewrite seq_S, List.map_app, concat_app, IH. cbn [List.map concat].
  rewrite app_nil_r, list_markets_result_markets.
  rewrite py_slice_take_drop by lia.
  replace (S n * Z.to_nat size)%nat
    with (n * Z.to_nat size + Z.to_nat size)%nat by lia.
  rewrite firstn_plus. do 3 f_equal. lia.
Qed.

(** case conversion gives the empty string for the empty string only *)
Lemma upper_two_nonempty (c1 c2 : ascii) (out : string) :
  PyStr.upper_two c1 c2 = Some out -> out <> "".
Proof.
  unfold PyStr.upper_two. intros H.
  repeat match type of H with
  | context [match ?x with _ => _ end] => destruct x; try discriminate H
  end.
  all: injection H as <-; discriminate.
Qed.

Lemma upper_three_nonempty (c1 c2 c3 : ascii) (out : string) :
  PyStr.upper_three c1 c2 c3 = Some out -> out <> "".
Proof.
  unfold PyStr.upper_three. intros H.
  repeat match type of H with
  | context [match ?x with _ => _ end] => destruct x; try discriminate H
  end.
  all: injection H as <-; discriminate.
Qed.

Lemma lower_three_nonempty (c1 c2 c3 : ascii) (out : string) :
  PyStr.lower_three c1 c2 c3 = Some out -> out <> "".
Proof.
  unfold PyStr.lower_three. intros H.
  repeat match type of H with
  | context [match ?x with _ => _ end] => destruct x; try discriminate H
  end.
  all: injection H as <-; discriminate.
Qed.

Lemma app_nonempty (a b : string) : a <> "" -> a +:+ b <> "".
Proof. destruct a; [congruence | discriminate]. Qed.

Lemma upper_empty (s : string) : PyStr.upper s = "" <-> s = "".
Proof.
  split; [|intros ->; reflexivity].
  destruct s as [|c1 [|c2 s2]]; [reflexivity | discriminate |].
  intros H. exfalso. revert H. cbn [PyStr.upper].
  destruct (PyStr.upper_two c1 c2) as [out|] eqn:E2.
  - apply app_nonempty. exact (upper_two_nonempty _ _ _ E2).
  - destruct s2 as [|c3 s3]; [discriminate|].
    destruct (PyStr.upper_three c1 c2 c3) as [out|] eqn:E3; [|discriminate].
    apply app_nonempty. exact (upper_three_nonempty _ _ _ _ E3).
Qed.

Lemma lower_empty (s : string) : PyStr.lower s = "" <-> s = "".
Proof.
  split; [|intros ->; reflexivity].
  destruct s as [|c1 [|c2 [|c3 s3]]]; [reflexivity | discriminate..|].
  intros H. exfalso. revert H. cbn [PyStr.lower].
  destruct (PyStr.lower_three c1 c2 c3) as [out|] eqn:E3; [|discriminate].
  apply app_nonempty. exact (lower_three_nonempty _ _ _ _ E3).
Qed.

(** X7. The listing does not depend on the letter case of the category or
    of the search text: two categories with one upper-case form and two
    search texts with one lower-case form give the same result. *)
Theorem listing_ignores_case (c1 c2 q1 q2 sort_by : string) (p size : Z) :
  PyStr.upper c1 = PyStr.upper c2 ->
  PyStr.lower q1 = PyStr.lower q2 ->
  list_markets_result (Some c1) sort_by p size (Some q1)
  = list_markets_result (Some c2) sort_by p size (Some q2).
Proof.
  intros Hc Hq. unfold list_markets_result. cbn [PyStr.format_opt].
  assert (Et : forall a b f, f a = f b ->
            (forall s, f s = "" <-> s = "") ->
            PyStr.truthy_opt (Some a) = PyStr.truthy_opt (Some b)).
  { intros a b f E Hf. simpl.
    assert (H0 : f "" = "") by now apply Hf.
    destruct a, b; try reflexivity; exfalso; rewrite H0 in E.
    - symmetry in E. apply (proj1 (Hf _)) in E. discriminate.
    - apply (proj1 (Hf _)) in E. discriminate. }
  rewrite (Et c1 c2 PyStr.upper Hc upper_empty).
  rewrite (Et q1 q2 PyStr.lower Hq lower_empty).
  unfold category_matches. now rewrite Hc, Hq.
Qed.

Section ListingHandler.
Context (cfg : Config) {G : RandomGen}.

Lemma list_markets_uncached category sort_by (p size : Z) search (w : World) :
  cache w !! markets_cache_key category sort_by p size search = None ->
  list_markets cfg category sort_by p size search w
  = (PSearchResult (list_markets_result category sort_by p size search),
     snd (cache_set (markets_cache_key category sort_by p size search)
            (PSearchResult
               (list_markets_result category sort_by p size search)) w)).
Proof.
  intros E.
  assert (Hg := cache_get_absent cfg _ _ E).
  rewrite list_markets_miss by now rewrite Hg.
  now rewrite Hg.
Qed.

(** X8. A listing request that finds no entry under its cache key is
    answered with the computed result: [total_count] is the number of seed
    markets that pass the filters, whatever the page, the page has the
    length of the pagination formula, and a page past the last match is
    empty (for a category other than the empty string). *)
Theorem uncached_listing_counts_and_pages category sort_by (p size : Z)
    search (w : World) :
  cache w !! markets_cache_key category sort_by p size search = None ->
  category <> Some "" -> 1 <= p -> 1 <= size ->
  exists r,
    fst (list_markets cfg category sort_by p size search w) = PSearchResult r
    /\ total_count r = matching_count category search
    /\ Z.of_nat (length (markets r))
       = page_length (matching_count category search) p size
    /\ (matching_count category search <= (p - 1) * size -> markets r = []).
Proof.
  intros E Hc Hp Hs. rewrite list_markets_uncached by exact E.
  eexists. split; [reflexivity|].
  pose proof (list_markets_result_total_count category sort_by p size search Hc)
    as Ht.
  split; [exact Ht|]. rewrite <- Ht. split.
  - now apply list_markets_result_page_length.
  - now apply list_markets_result_page_beyond.
Qed.

(** X9. A listing request that finds no entry under its cache key returns
    its page in descending order of the field that [sort_by] selects,
    markets with equal values in seed order; a [sort_by] that is none of
    the four names selects [volume_24h_usd]. *)
Theorem uncached_listing_is_sorted category sort_by (p size : Z) search
    (w : World) :
  cache w !! markets_cache_key category sort_by p size search = None ->
  exists r,
    fst (list_markets cfg category sort_by p size search w) = PSearchResult r
    /\ (forall x y, occurs_before x y (markets r) ->
          (sort_key sort_by y <= sort_key sort_by x)%Q
          /\ ((sort_key sort_by x == sort_key sort_by y)%Q ->
              occurs_before x y MOCK_MARKETS))
    /\ (~ In sort_by sort_names -> sort_key sort_by = volume_24h_usd).
Proof.
  intros E. rewrite list_markets_uncached by exact E.
  eexists. split; [reflexivity|]. split.
  - intros x y. apply list_markets_result_sorted.
  - apply sort_key_unrecognized.
Qed.

Lemma cache_get_wall (k : string) (w : World) :
  wall (snd (cache_get cfg k w)) = wall w.
Proof.
  destruct (cache w !! k) as [[ts v]|] eqn:E.
  - now rewrite (cache_get_present _ _ _ _ _ E).
  - now rewrite (cache_get_absent _ _ _ E).
Qed.

(** X10. A listing request whose lookup served nothing (no entry under the
    key, an expired entry, or an entry with a false value) computes its
    result; the same request made next, when the difference between the
    clock reading of its lookup and the reading of the store, as the float
    subtraction computes it, is below the time-to-live, gets the same
    answer from the cache, and the cache stays as it is.  The store reads
    the clock after the first lookup, which reads it when it finds an
    entry. *)
Theorem repeated_listing_is_cached category sort_by (p size : Z) search
    (w : World) :
  let key := markets_cache_key category sort_by p size search in
  let t := ticks (snd (cache_get cfg key w)) in
  truthy (fst (cache_get cfg key w)) = false ->
  (float_sub (wall w (S t)) (wall w t)
   < inject_Z (CACHE_TTL_SECONDS cfg))%Q ->
  let w1 := snd (list_markets cfg category sort_by p size search w) in
  fst (list_markets cfg category sort_by p size search w)
  = PSearchResult (list_markets_result category sort_by p size search)
  /\ fst (list_markets cfg category sort_by p size search w1)
     = fst (list_markets cfg category sort_by p size search w)
  /\ cache (snd (list_markets cfg category sort_by p size search w1))
     = cache w1.
Proof.
  intros key t Hmiss Hfresh. cbv zeta.
  pose proof (list_markets_miss cfg category sort_by p size search w Hmiss)
    as E1.
  cbv zeta in E1. fold key in E1. rewrite E1. cbn [fst snd].
  split; [reflexivity|].
  rewrite cache_set_run. cbn [snd].
  match goal with
  | |- context [list_markets cfg _ _ _ _ _ ?w1] =>
      assert (Hget : cache_get cfg key w1
              = (PSearchResult
                   (list_markets_result category sort_by p size search),
                 snd (time_time w1)))
  end.
  { erewrite cache_get_present by (cbn [cache]; apply lookup_insert_eq).
    cbn [wall ticks]. rewrite cache_get_wall. fold t.
    apply Qlt_bool_iff in Hfresh. now rewrite Hfresh. }
  rewrite list_markets_hit by (fold key; now rewrite Hget).
  fold key. rewrite Hget. split; reflexivity.
Qed.

(** X11. In every world the service reaches, a valid listing request is
    answered with a page that is well formed by its own fields: page and
    page size in range, as many markets as the pagination formula gives
    for them, a total between 0 and 4, and seed markets only. *)
Theorem reachable_listing_is_a_page category sort_by (p size : Z) search
    (w : World) :
  reachable cfg w ->
  valid_request (GetMarkets category sort_by p size search) = true ->
  exists r,
    fst (handle cfg (GetMarkets category sort_by p size search) w)
    = RObject (PSearchResult r)
    /\ 1 <= page r /\ 1 <= page_size r <= 100
    /\ Z.of_nat (length (markets r))
       = page_length (total_count r) (page r) (page_size r)
    /\ 0 <= total_count r <= 4
    /\ (forall m, In m (markets r) -> In m MOCK_MARKETS).
Proof.
  intros Hr Hv. unfold handle. rewrite Hv. cbn [dispatch]. unfold bind.
  simpl in Hv.
  destruct (reachable_listing_answer cfg w category sort_by p size search Hr
              ltac:(lia) ltac:(lia))
    as (c' & s' & p' & ps' & q' & Hp & Hs & _ & E).
  destruct (list_markets cfg category sort_by p size search w) as [v w'].
  cbn [fst] in E. subst v. cbn [fst ret].
  eexists. split; [reflexivity|].
  split; [exact Hp|]. split; [exact Hs|]. split; [|split].
  - exact (list_markets_result_page_length c' s' p' ps' q' Hp (proj1 Hs)).
  - unfold list_markets_result. cbn [total_count].
    rewrite sort_desc_length. split; [lia|].
    match goal with
    | |- Z.of_nat (length ?l) <= _ =>
        enough (length l <= length MOCK_MARKETS)%nat by (simpl in *; lia)
    end.
    destruct (PyStr.truthy_opt q'), (PyStr.truthy_opt c');
      first [ apply Nat.le_refl
            | apply filter_length_le
            | eapply Nat.le_trans; apply filter_length_le ].
  - apply list_markets_result_In.
Qed.

End ListingHandler.

(* ------------------------------------------------------------------ *)
(** ** Hot markets *)

Lemma hot_key_inj (limit limit' : Z) :
  "hot:" +:+ pretty limit = "hot:" +:+ pretty limit' -> limit = limit'.
Proof.
  intros H. simpl in H. injection H as H. now apply pretty_Z_inj in H.
Qed.

Lemma occurs_before_split {A : Type} (x y : A) (l1 l2 : list A) :
  In x l1 -> In y l2 -> occurs_before x y (l1 ++ l2)%list.
Proof.
  intros Hx Hy.
  apply in_split in Hx as (a & b & ->).
  apply in_split in Hy as (c & d & ->).
  exists a, (b ++ c)%list, d. now rewrite <- !app_assoc.
Qed.

Lemma In_firstn {A : Type} (x : A) (n : nat) (l : list A) :
  In x (firstn n l) -> In x l.
Proof.
  intros H. rewrite <- (firstn_skipn n l). apply in_or_app. now left.
Qed.

Lemma py_slice_prefix {A : Type} (l : list A) (n : Z) :
  0 <= n -> py_slice l 0 n = firstn (Z.to_nat n) l.
Proof.
  intros H. change n with (0 + n) at 1.
  now rewrite py_slice_take_drop by lia.
Qed.

(** X12. The markets that [hot_markets] returns for a limit of at least
    one: as many as the limit allows, at most the four seed markets, in
    descending order of the score, and no market left out has a higher
    score than one returned. *)
Theorem hot_top_is_the_best (limit : Z) :
  1 <= limit ->
  let top := py_slice hot_ranking 0 limit in
  Z.of_nat (length top) = Z.min limit 4
  /\ (forall m, In m top -> In m MOCK_MARKETS)
  /\ (forall x y, occurs_before x y top -> (hot_score y <= hot_score x)%Q)
  /\ (forall x y, In x top -> In y MOCK_MARKETS -> ~ In y top ->
        (hot_score y <= hot_score x)%Q).
Proof.
  intros Hl top. subst top. rewrite py_slice_prefix by lia.
  unfold hot_ranking.
  set (ranking := sort_desc hot_score MOCK_MARKETS).
  assert (Hdesc : forall x y, occurs_before x y ranking ->
                    (hot_score y <= hot_score x)%Q).
  { intros x y. apply sort_desc_descending. }
  assert (Hparts : ranking
            = (firstn (Z.to_nat limit) ranking
               ++ skipn (Z.to_nat limit) ranking)%list)
    by (symmetry; apply firstn_skipn).
  split; [|split; [|split]].
  - rewrite length_firstn. unfold ranking.
    rewrite sort_desc_length. simpl length. lia.
  - intros m Hm. apply In_firstn in Hm.
    exact (proj1 (sort_desc_In hot_score m MOCK_MARKETS) Hm).
  - intros x y Hxy. apply Hdesc. rewrite Hparts.
    now apply occurs_before_app_r.
  - intros x y Hx Hy Hny. apply Hdesc. rewrite Hparts.
    apply occurs_before_split; [exact Hx|].
    apply (proj2 (sort_desc_In hot_score y MOCK_MARKETS)) in Hy.
    fold ranking in Hy. rewrite Hparts in Hy.
    apply in_app_or in Hy as [Hy|Hy]; [contradiction | exact Hy].
Qed.

Section HotHandler.
Context (cfg : Config) {G : RandomGen}.

Lemma hot_entries_ok_handle (r : Request) (w : World) :
  hot_entries_ok w -> hot_entries_ok (snd (handle cfg r w)).
Proof.
  intros H limit ts v.
  destruct (handle_cache cfg r w) as [-> | (k & ts' & v' & Hw & ->)];
    [apply H|].
  destruct (decide (k = "hot:" +:+ pretty limit)) as [Ek|Hne].
  - rewrite Ek, lookup_insert_eq. intros [= <- <-].
    destruct Hw as [c s p ps q Hp Hs|limit'|id Ht|req id meta].
    + exfalso. revert Ek. unfold markets_cache_key. simpl. discriminate.
    + apply hot_key_inj in Ek as ->. reflexivity.
    + exfalso. revert Ek. simpl. discriminate.
    + exfalso. revert Ek. simpl. discriminate.
  - rewrite lookup_insert_ne by exact Hne. apply H.
Qed.

Lemma reachable_hot_entries_ok (w : World) :
  reachable cfg w -> hot_entries_ok w.
Proof.
  induction 1 as [w Hw | w r _ IH].
  - intros limit ts v H. unfold initial in Hw. rewrite Hw in H.
    now rewrite lookup_empty in H.
  - now apply hot_entries_ok_handle.
Qed.

(** X13. In every world the service reaches, a valid hot-markets request is
    answered with the first [limit] markets of the ranking, whether the
    answer is computed or comes from the cache. *)
Theorem reachable_hot_markets (limit : Z) (w : World) :
  reachable cfg w ->
  valid_request (GetHotMarkets limit) = true ->
  fst (handle cfg (GetHotMarkets limit) w)
  = RObject (PMarkets (firstn (Z.to_nat limit) hot_ranking)).
Proof.
  intros Hr Hv. apply reachable_hot_entries_ok in Hr.
  unfold handle. rewrite Hv. cbn [dispatch]. unfold bind.
  simpl in Hv.
  assert (Es : py_slice hot_ranking 0 limit
               = firstn (Z.to_nat limit) hot_ranking)
    by (apply py_slice_prefix; lia).
  destruct (truthy (fst (cache_get cfg ("hot:" +:+ pretty limit) w))) eqn:E.
  - rewrite (hot_markets_hit _ _ _ E).
    destruct (cache_get_cases cfg ("hot:" +:+ pretty limit) w)
      as [En|[ts En]].
    + rewrite En in E. discriminate.
    + apply Hr in En.
      destruct (cache_get cfg ("hot:" +:+ pretty limit) w) as [v w'].
      cbn [fst] in En. subst v. cbn [fst ret]. now rewrite Es.
  - rewrite (hot_markets_miss _ _ _ E). cbn [fst ret].
    fold hot_ranking. now rewrite Es.
Qed.

(** X14. A lookup of a market id that no seed market has leaves the cache
    as it is: the not-found answer is not stored.  In every world the
    service reaches, a lookup of a seed market's id leaves the seed record
    stored under the key of that id. *)
Theorem get_market_cache_effect (id : Z) (w : World) :
  ((forall m, In m MOCK_MARKETS -> market_id m <> id) ->
     cache (snd (handle cfg (GetMarket id) w)) = cache w)
  /\ (reachable cfg w ->
      forall m, In m MOCK_MARKETS -> market_id m = id ->
        exists ts,
          cache (snd (handle cfg (GetMarket id) w))
            !! ("market:" +:+ pretty id) = Some (ts, PMarket m)).
Proof.
  unfold handle. cbn [valid_request dispatch]. unfold bind at 1 2.
  destruct (truthy (fst (cache_get cfg ("market:" +:+ pretty id) w))) eqn:E.
  - rewrite (get_market_hit _ _ _ E). cbn [snd ret].
    rewrite cache_get_keeps_cache. split; [reflexivity|].
    intros Hr m Hin <-. apply reachable_market_entries_ok in Hr.
    destruct (cache_get_cases cfg ("market:" +:+ pretty (market_id m)) w)
      as [En|[ts En]].
    + rewrite En in E. discriminate.
    + exists ts. rewrite En. destruct (Hr _ _ _ En) as [-> _].
      now rewrite (find_market_present _ Hin).
  - rewrite (get_market_miss _ _ _ E). split.
    + intros Habs. rewrite (find_market_absent _ Habs). cbn [truthy snd ret].
      apply cache_get_keeps_cache.
    + intros _ m Hin <-. rewrite (find_market_present _ Hin).
      cbn [truthy snd ret]. rewrite cache_set_run. cbn [snd cache].
      rewrite lookup_insert_eq. eauto.
Qed.

End HotHandler.

(* ------------------------------------------------------------------ *)
(** ** Price history: the candles *)

Lemma countdown_len (i : Z) (n : nat) : length (countdown i n) = n.
Proof.
  revert i. induction n as [|n IH]; intros i; simpl; [|rewrite IH];
    reflexivity.
Qed.

Lemma price_walk_sane now step i price (cs : list Candle) :
  100 <= price <= 9900 ->
  price_walk now step i price cs -> Forall candle_sane cs.
Proof.
  revert i price. induction cs as [|c cs IH]; intros i price Hp Hw;
    [constructor|].
  simpl in Hw.
  destruct Hw as (_ & Ho & (delta & Hd & Hc) & (up & Hu & Hh)
                  & (down & Hdn & Hl) & Hv & Hrest).
  constructor.
  - unfold candle_sane. rewrite Ho in *. repeat split; try lia; tauto.
  - apply (IH (i - 1) (close c)); [lia | exact Hrest].
Qed.

Section PriceHistoryMore.
Context {G : RandomGen}.

Lemma get_price_history_candles (market_id : Z) (interval : string)
    (limit : Z) (w : World) :
  exists w',
    candles (fst (get_price_history market_id interval limit w))
    = fst (candle_loop (int_of_float (wall w (ticks w)))
             (default 3600 (intervals interval))
             (countdown limit (Z.to_nat limit)) 5000 [] w')
    /\ rng w' = rng_seed market_id.
Proof.
  unfold get_price_history, bind. simpl.
  destruct (candle_loop _ _ _ _ _ _) as [cs w'] eqn:E. simpl.
  change cs with (fst (cs, w')). rewrite <- E.
  rewrite py_range_down_countdown. eexists. split; reflexivity.
Qed.

(** X15. Every candle of a price history is well formed: open and close
    lie in [100, 9900], low is at most the smaller and high at least the
    larger of the two, low is not negative, high is at most 10000, and the
    volume lies in [10000, 200000]. *)
Theorem candles_are_well_formed `{!RandomGenRanges G} (market_id : Z)
    (interval : string) (limit : Z) (w : World) :
  Forall candle_sane
    (candles (fst (get_price_history market_id interval limit w))).
Proof.
  destruct (get_price_history_candles market_id interval limit w)
    as (w' & -> & _).
  match goal with
  | |- context [candle_loop ?now ?step (countdown ?i ?n) ?p [] ?w0] =>
      destruct (candle_loop_walk n now step i p [] w0) as (cs & E & _ & Hw)
  end.
  rewrite E. simpl.
  apply (price_walk_sane _ _ _ 5000 _ ltac:(lia) Hw).
Qed.

Lemma candle_loop_extends now step (l : list Z) price (acc : list Candle)
    (w : World) :
  exists cs, fst (candle_loop now step l price acc w) = (acc ++ cs)%list.
Proof.
  revert price acc w. induction l as [|i l IH]; intros price acc w.
  - exists []. simpl. now rewrite app_nil_r.
  - simpl. unfold bind, random_randint, random_uniform.
    destruct (rng_randint (-200) 200 (rng w)) as [delta s1]. simpl.
    destruct (rng_randint 0 100 s1) as [up s2]. simpl.
    destruct (rng_randint 0 100 s2) as [down s3]. simpl.
    destruct (rng_uniform 10000 200000 s3) as [vol s4]. simpl.
    match goal with
    | |- context [candle_loop now step l ?p (acc ++ [?c])%list ?w'] =>
        destruct (IH p (acc ++ [c])%list w') as (cs & E); exists (c :: cs)
    end.
    rewrite E, <- app_assoc. reflexivity.
Qed.

(** the values of a shorter walk are the first values of a longer one *)
Lemma candle_loop_prefix (l1 l2 : list Z) now1 step1 now2 step2 price
    (acc1 acc2 : list Candle) (w1 w2 : World) :
  (length l1 <= length l2)%nat -> rng w1 = rng w2 ->
  List.map candle_values acc1 = List.map candle_values acc2 ->
  List.map candle_values (fst (candle_loop now1 step1 l1 price acc1 w1))
  = firstn (length acc1 + length l1)
      (List.map candle_values
         (fst (candle_loop now2 step2 l2 price acc2 w2))).
Proof.
  revert l2 price acc1 acc2 w1 w2.
  induction l1 as [|i1 l1 IH]; intros l2 price acc1 acc2 w1 w2 Hl Hr Ha.
  - destruct (candle_loop_extends now2 step2 l2 price acc2 w2) as (cs & ->).
    cbn [candle_loop ret fst length]. rewrite Nat.add_0_r.
    rewrite List.map_app, <- Ha.
    rewrite <- (length_map candle_values acc1).
    rewrite firstn_app, Nat.sub_diag, firstn_all. simpl.
    now rewrite app_nil_r.
  - destruct l2 as [|i2 l2]; [simpl in Hl; lia|].
    simpl candle_loop. unfold bind, random_randint, random_uniform.
    rewrite <- Hr.
    destruct (rng_randint (-200) 200 (rng w1)) as [delta s1]. simpl.
    destruct (rng_randint 0 100 s1) as [up s2]. simpl.
    destruct (rng_randint 0 100 s2) as [down s3]. simpl.
    destruct (rng_uniform 10000 200000 s3) as [vol s4]. simpl.
    erewrite IH.
    + rewrite length_app. simpl length.
      replace (length acc1 + 1 + length l1)%nat
        with (length acc1 + S (length l1))%nat by lia.
      reflexivity.
    + simpl in Hl. lia.
    + reflexivity.
    + rewrite !List.map_app, Ha. reflexivity.
Qed.

(** X16. A price history with a smaller limit is, in open, high, low,
    close and volume, the beginning of the price history of the same
    market with a larger limit: raising the limit adds candles at the end
    of the walk and changes none of the values before them. *)
Theorem shorter_history_is_a_prefix (market_id n m : Z)
    (interval1 interval2 : string) (w1 w2 : World) :
  0 <= n <= m ->
  List.map candle_values
    (candles (fst (get_price_history market_id interval1 n w1)))
  = firstn (Z.to_nat n)
      (List.map candle_values
         (candles (fst (get_price_history market_id interval2 m w2)))).
Proof.
  intros Hnm.
  destruct (get_price_history_candles market_id interval1 n w1)
    as (w1' & -> & Hr1).
  destruct (get_price_history_candles market_id interval2 m w2)
    as (w2' & -> & Hr2).
  erewrite candle_loop_prefix.
  - rewrite countdown_len. simpl. reflexivity.
  - rewrite !countdown_len. lia.
  - congruence.
  - reflexivity.
Qed.

End PriceHistoryMore.

(* ------------------------------------------------------------------ *)
(** ** Pending metadata *)

Section PendingMetadata.
Context (cfg : Config) {G : RandomGen}.

Lemma create_market_metadata_run (req : CreateMarketRequest) (w : World) :
  let t0 := wall w (ticks w) in
  let t1 := wall w (S (ticks w)) in
  let t2 := wall w (S (S (ticks w))) in
  let id := "vp-" +:+ pretty (int_of_float t0) in
  create_market_metadata cfg req w
  = ({| created_metadata_id := id; ipfs_uri := "ipfs://" +:+ id |},
     {| cache := <["pending_meta:" +:+ id
                   := (t2, PMeta (pending_record cfg req t0 t1))]> (cache w);
        wall := wall w; ticks := S (S (S (ticks w))); rng := rng w |}).
Proof. reflexivity. Qed.

(** X17. A submission is answered, whatever the clock, with the id [vp-]
    followed by the whole seconds of its first clock reading, and the URI
    [ipfs://] followed by that id, and the record composed from the
    request is stored under [pending_meta:] and the id with the third
    reading as its time.  A lookup of that key made next returns the
    record when the difference between its clock reading and the time of
    the store, as the float subtraction computes it, is below the
    time-to-live, and reports absence once the time-to-live or more has
    elapsed. *)
Theorem pending_record_round_trip (req : CreateMarketRequest) (w : World) :
  let t0 := wall w (ticks w) in
  let t1 := wall w (S (ticks w)) in
  let stored_at := wall w (S (S (ticks w))) in
  let read_at := wall w (S (S (S (ticks w)))) in
  let id := "vp-" +:+ pretty (int_of_float t0) in
  let w' := snd (create_market_metadata cfg req w) in
  fst (create_market_metadata cfg req w)
  = {| created_metadata_id := id; ipfs_uri := "ipfs://" +:+ id |}
  /\ cache w' !! ("pending_meta:" +:+ id)
     = Some (stored_at, PMeta (pending_record cfg req t0 t1))
  /\ ((float_sub read_at stored_at < inject_Z (CACHE_TTL_SECONDS cfg))%Q ->
      fst (cache_get cfg ("pending_meta:" +:+ id) w')
      = PMeta (pending_record cfg req t0 t1))
  /\ ((inject_Z (CACHE_TTL_SECONDS cfg) <= read_at - stored_at)%Q ->
      fst (cache_get cfg ("pending_meta:" +:+ id) w') = PNone).
Proof.
  cbv zeta. rewrite create_market_metadata_run.
  cbv zeta. cbn [fst snd]. split; [reflexivity|].
  split; [cbn [cache]; apply lookup_insert_eq|].
  erewrite cache_get_present by (cbn [cache]; apply lookup_insert_eq).
  cbn [fst wall ticks]. split; intros H.
  - apply Qlt_bool_iff in H. now rewrite H.
  - now rewrite (stale_by_clock _ _ _ H).
Qed.

(** X18. Two submissions whose first clock readings fall in the same whole
    second get the same id, and the record of the second replaces the
    record of the first: afterwards the cache is the cache from before
    the two, with the second record alone under the shared key. *)
Theorem same_second_submissions_collide (req1 req2 : CreateMarketRequest)
    (w : World) :
  int_of_float (wall w (ticks w)) = int_of_float (wall w (3 + ticks w)) ->
  let w1 := snd (create_market_metadata cfg req1 w) in
  let w2 := snd (create_market_metadata cfg req2 w1) in
  let id := "vp-" +:+ pretty (int_of_float (wall w (ticks w))) in
  created_metadata_id (fst (create_market_metadata cfg req1 w)) = id
  /\ created_metadata_id (fst (create_market_metadata cfg req2 w1)) = id
  /\ cache w2
     = <["pending_meta:" +:+ id
         := (wall w (5 + ticks w),
             PMeta (pending_record cfg req2
                      (wall w (3 + ticks w)) (wall w (4 + ticks w))))]>
         (cache w).
Proof.
  intros Hsame. cbv zeta.
  rewrite (create_market_metadata_run req1 w). cbv zeta. cbn [fst snd].
  rewrite create_market_metadata_run. cbv zeta.
  cbn [fst snd cache wall ticks created_metadata_id].
  change (S (S (S (ticks w)))) with (3 + ticks w)%nat.
  change (S (3 + ticks w)) with (4 + ticks w)%nat.
  change (S (4 + ticks w)) with (5 + ticks w)%nat.
  rewrite <- Hsame. split; [reflexivity|]. split; [reflexivity|].
  apply insert_insert_eq.
Qed.

(** X19. When the request has an IPFS hash that is not empty, the image
    URL of the stored record is the explicit image URL if there is one
    that is not empty, and otherwise the gateway prefix followed by the
    hash. *)
Theorem image_url_with_hash (req : CreateMarketRequest) (h : string) :
  req_image_ipfs_hash req = Some h -> h <> "" ->
  resolve_image_url cfg req
  = match req_image_url req with
    | Some (String c u) => String c u
    | _ => IPFS_GATEWAY cfg +:+ h
    end.
Proof.
  intros Eh Hne. unfold resolve_image_url. rewrite Eh.
  destruct h as [|c h]; [congruence|].
  destruct (req_image_url req) as [[|d u]|]; reflexivity.
Qed.

End PendingMetadata.

(* ------------------------------------------------------------------ *)
(** ** Leaderboard, activity feed, search *)

Lemma nth_error_firstn_Some {A : Type} (n i : nat) (l : list A) (x : A) :
  nth_error (firstn n l) i = Some x -> nth_error l i = Some x.
Proof.
  revert i l. induction n as [|n IH]; intros [|i] [|y l]; simpl;
    try discriminate; auto.
Qed.

(** X20. For a limit of at least one the leaderboard holds the first
    [min(limit, 3)] seed entries in seed order, the entry at position [i]
    carrying rank [i + 1]; [metric] and [timeframe] have no effect, so the
    order is never recomputed for another metric. *)
Theorem leaderboard_is_a_seed_prefix (metric timeframe : string) (limit : Z) :
  1 <= limit ->
  let board := get_leaderboard metric limit timeframe in
  Z.of_nat (length board) = Z.min limit 3
  /\ board = firstn (Z.to_nat limit) MOCK_LEADERBOARD
  /\ (forall (i : nat) e, nth_error board i = Some e ->
        rank e = Z.of_nat i + 1)
  /\ (forall metric' timeframe',
        get_leaderboard metric' limit timeframe' = board).
Proof.
  intros Hl board. subst board. unfold get_leaderboard.
  rewrite py_slice_prefix by lia. split; [|split; [|split]].
  - rewrite length_firstn. simpl length. lia.
  - reflexivity.
  - intros i e H. apply nth_error_firstn_Some in H.
    destruct i as [|[|[|i]]]; simpl in H; try (injection H as <-; reflexivity).
    now destruct i.
  - reflexivity.
Qed.

Section Feed.
Context {G : RandomGen}.


End Feed.

(** X22. The search route agrees with the listing route: its results are
    the listing that [GET /markets] pages for the same text as [search]
    and no category, in another order (seed order instead of the order of
    [sort_by]), and its count is the [total_count] of every page of that
    listing. *)
Theorem search_agrees_with_listing (q sort_by : string) (p size : Z) :
  Permutation (listing None sort_by (Some q)) (sr_results (search q))
  /\ sr_count (search q)
     = total_count (list_markets_result None sort_by p size (Some q))
  /\ (forall x y, occurs_before x y (sr_results (search q)) ->
        occurs_before x y MOCK_MARKETS).
Proof.
  assert (E : sr_results (search q)
              = List.filter (passes_search (Some q)) MOCK_MARKETS)
    by reflexivity.
  split; [|split].
  - rewrite listing_filtered by discriminate.
    rewrite sort_desc_perm, E. reflexivity.
  - rewrite list_markets_result_total_count by discriminate.
    unfold matching_count, search. cbn [sr_count].
    apply (f_equal Z.of_nat), (f_equal (@length Market)).
    apply List.filter_ext. intros m.
    unfold passes_category, passes_search. reflexivity.
  - intros x y. rewrite E. apply occurs_before_of_filter.
Qed.

(* ------------------------------------------------------------------ *)
(** ** The further properties on concrete inputs *)

Lemma cache_set_other_key_witness :
  fst (cache_get default_config "b"
         (snd (cache_set "a" (PInt 1) (start_world 1))))
  = fst (cache_get default_config "b" (snd (time_time (start_world 1)))).
Proof.
  apply (cache_set_other_key default_config "a" "b" (PInt 1) (start_world 1)).
  discriminate.
Defined.

Lemma expired_entry_stays_witness :
  fst (cache_get default_config "k"
         (snd (cache_set "k" (PInt 7) (start_world 60)))) = PNone
  /\ cache (snd (cache_get default_config "k"
                   (snd (cache_set "k" (PInt 7) (start_world 60)))))
       !! "k" = Some (as_time (inject_Z 1700000000), PInt 7).
Proof.
  destruct (expired_entry_stays default_config "k"
              (as_time (inject_Z 1700000000))
              (PInt 7) (snd (cache_set "k" (PInt 7) (start_world 60))))
    as (H1 & H2 & _).
  - vm_compute. reflexivity.
  - vm_compute. discriminate.
  - split; [exact H1 | exact H2].
Defined.

Lemma nonpositive_ttl_never_serves_witness :
  fst (cache_get zero_ttl_config "k"
         (snd (cache_set "k" (PInt 7) (start_world 1)))) = PNone.
Proof.
  apply (nonpositive_ttl_never_serves zero_ttl_config "k" (PInt 7)
           (start_world 1)).
  - simpl. lia.
  - vm_compute. discriminate.
Defined.

Lemma listing_is_the_matching_markets_witness :
  In market_2 (listing (Some "crypto") "num_traders" None)
  /\ In market_1 (listing (Some dotless_category) "num_traders" None)
  /\ In market_2 (listing None "num_traders" (Some kelvin_query)).
Proof.
  split; [|split].
  - apply (proj2 (listing_is_the_matching_markets (Some "crypto")
                    "num_traders" None ltac:(discriminate))).
    simpl. tauto.
  - apply (proj2 (listing_is_the_matching_markets (Some dotless_category)
                    "num_traders" None ltac:(discriminate))).
    split; [simpl; tauto | split; reflexivity].
  - apply (proj2 (listing_is_the_matching_markets None
                    "num_traders" (Some kelvin_query) ltac:(discriminate))).
    split; [simpl; tauto | split; reflexivity].
Defined.

Lemma pages_tile_the_listing_witness :
  concat (List.map
            (fun p => markets (list_markets_result None "volume_24h"
                                 (Z.of_nat p) 3 None))
            (seq 1 2))
  = firstn (2 * Z.to_nat 3) (listing None "volume_24h" None).
Proof.
  apply (pages_tile_the_listing None "volume_24h" None 3 2). lia.
Defined.

Lemma listing_ignores_case_witness :
  list_markets_result (Some "crypto") "volume_24h" 1 20 (Some "BTC")
  = list_markets_result (Some "CRYPTO") "volume_24h" 1 20 (Some "btc").
Proof.
  apply (listing_ignores_case "crypto" "CRYPTO" "BTC" "btc" "volume_24h" 1 20);
    reflexivity.
Defined.

Lemma uncached_listing_counts_and_pages_witness :
  (exists r,
     fst (list_markets default_config (Some "crypto") "num_traders" 1 1 None
            (start_world 1)) = PSearchResult r
     /\ total_count r = 1
     /\ Z.of_nat (length (markets r)) = 1)
  /\ (exists r,
        fst (list_markets default_config (Some dotless_category)
               "volume_24h" 1 20 (Some "fed") (start_world 1))
        = PSearchResult r
        /\ total_count r = 1)
  /\ (exists r,
        fst (list_markets default_config None "volume_24h" 1 20
               (Some kelvin_query) (start_world 1)) = PSearchResult r
        /\ total_count r = 1).
Proof.
  split; [|split].
  - destruct (uncached_listing_counts_and_pages default_config (Some "crypto")
                "num_traders" 1 1 None (start_world 1))
      as (r & E & Ht & Hl & _).
    + reflexivity.
    + discriminate.
    + lia.
    + lia.
    + exists r. split; [exact E|]. split; [exact Ht | exact Hl].
  - destruct (uncached_listing_counts_and_pages default_config
                (Some dotless_category) "volume_24h" 1 20 (Some "fed")
                (start_world 1))
      as (r & E & Ht & _).
    + reflexivity.
    + discriminate.
    + lia.
    + lia.
    + exists r. split; [exact E | exact Ht].
  - destruct (uncached_listing_counts_and_pages default_config
                None "volume_24h" 1 20 (Some kelvin_query) (start_world 1))
      as (r & E & Ht & _).
    + reflexivity.
    + discriminate.
    + lia.
    + lia.
    + exists r. split; [exact E | exact Ht].
Defined.

Lemma uncached_listing_is_sorted_witness :
  exists r,
    fst (list_markets default_config None "yes_price" 1 20 None
           (start_world 1)) = PSearchResult r
    /\ forall x y, occurs_before x y (markets r) ->
         (sort_key "yes_price" y <= sort_key "yes_price" x)%Q.
Proof.
  destruct (uncached_listing_is_sorted default_config None "yes_price" 1 20
              None (start_world 1) eq_refl)
    as (r & E & Hs & _).
  exists r. split; [exact E|]. intros x y H. apply (Hs x y H).
Defined.

Lemma repeated_listing_is_cached_witness :
  fst (list_markets default_config None "volume_24h" 1 20 None
         after_unfiltered_listing)
  = fst (list_markets default_config None "volume_24h" 1 20 None
           (start_world 1))
  /\ (let expired :=
        snd (list_markets default_config None "volume_24h" 1 20 None
               jump_world) in
      fst (cache_get default_config
             (markets_cache_key None "volume_24h" 1 20 None) expired) = PNone
      /\ fst (list_markets default_config None "volume_24h" 1 20 None
                (snd (list_markets default_config None "volume_24h" 1 20 None
                        expired)))
         = fst (list_markets default_config None "volume_24h" 1 20 None
                  expired)).
Proof.
  split.
  - apply (proj1 (proj2
             (repeated_listing_is_cached default_config None "volume_24h" 1 20
                None (start_world 1) eq_refl ltac:(vm_compute; reflexivity)))).
  - cbv zeta. split; [vm_compute; reflexivity|].
    apply (proj1 (proj2
             (repeated_listing_is_cached default_config None "volume_24h" 1 20
                None
                (snd (list_markets default_config None "volume_24h" 1 20 None
                        jump_world))
                ltac:(vm_compute; reflexivity)
                ltac:(vm_compute; reflexivity)))).
Defined.

Lemma reachable_listing_is_a_page_witness :
  exists r,
    fst (handle default_config
           (GetMarkets None "yes_price" 1 1 (Some "1:20:None"))
           after_odd_sort_listing) = RObject (PSearchResult r)
    /\ Z.of_nat (length (markets r))
       = page_length (total_count r) (page r) (page_size r).
Proof.
  destruct (reachable_listing_is_a_page default_config None "yes_price" 1 1
              (Some "1:20:None") after_odd_sort_listing)
    as (r & E & _ & _ & Hl & _).
  - apply reachable_step, reachable_start. reflexivity.
  - reflexivity.
  - exists r. split; [exact E | exact Hl].
Defined.

Lemma hot_top_is_the_best_witness :
  Z.of_nat (length (py_slice hot_ranking 0 2)) = 2.
Proof.
  apply (hot_top_is_the_best 2). lia.
Defined.

Lemma reachable_hot_markets_witness :
  fst (handle default_config (GetHotMarkets 2) after_unfiltered_listing)
  = RObject (PMarkets (firstn 2 hot_ranking)).
Proof.
  apply (reachable_hot_markets default_config 2 after_unfiltered_listing).
  - apply reachable_step, reachable_start. reflexivity.
  - reflexivity.
Defined.

Lemma candles_are_well_formed_witness :
  Forall candle_sane
    (candles (fst (get_price_history 7 "1h" 3 (start_world 1)))).
Proof.
  exact (@candles_are_well_formed lcg_gen lcg_ranges 7 "1h" 3 (start_world 1)).
Defined.

Lemma shorter_history_is_a_prefix_witness :
  List.map candle_values
    (candles (fst (get_price_history 7 "1h" 2 (start_world 1))))
  = firstn 2
      (List.map candle_values
         (candles (fst (get_price_history 7 "1d" 5 (start_world 60))))).
Proof.
  apply (shorter_history_is_a_prefix 7 2 5 "1h" "1d"
           (start_world 1) (start_world 60)).
  lia.
Defined.

Lemma pending_record_round_trip_witness :
  fst (create_market_metadata default_config hash_only_request
         (start_world 1))
  = {| created_metadata_id := "vp-1700000000";
       ipfs_uri := "ipfs://vp-1700000000" |}
  /\ fst (cache_get default_config "pending_meta:vp-1700000000"
            (snd (create_market_metadata default_config hash_only_request
                    (start_world 1))))
     = PMeta (pending_record default_config hash_only_request
                (inject_Z 1700000000) (inject_Z 1700000001))
  /\ fst (cache_get default_config "pending_meta:vp-1700000000"
            (snd (create_market_metadata default_config hash_only_request
                    (start_world 60))))
     = PNone.
Proof.
  split; [|split].
  - exact (proj1 (pending_record_round_trip default_config hash_only_request
                    (start_world 1))).
  - apply (proj1 (proj2 (proj2
             (pending_record_round_trip default_config hash_only_request
                (start_world 1))))).
    vm_compute. reflexivity.
  - apply (proj2 (proj2 (proj2
             (pending_record_round_trip default_config hash_only_request
                (start_world 60))))).
    vm_compute. discriminate.
Defined.

Lemma same_second_submissions_collide_witness :
  created_metadata_id
    (fst (create_market_metadata default_config url_only_request slow_world))
  = "vp-1700000000"
  /\ created_metadata_id
       (fst (create_market_metadata default_config hash_only_request
               (snd (create_market_metadata default_config url_only_request
                       slow_world))))
     = "vp-1700000000".
Proof.
  destruct (same_second_submissions_collide default_config url_only_request
              hash_only_request slow_world eq_refl)
    as (H1 & H2 & _).
  split; [exact H1 | exact H2].
Defined.

Lemma image_url_with_hash_witness :
  resolve_image_url default_config hash_only_request
  = "https://cloudflare-ipfs.com/ipfs/QmXYZ".
Proof.
  apply (image_url_with_hash default_config hash_only_request "QmXYZ").
  - reflexivity.
  - discriminate.
Defined.

Lemma leaderboard_is_a_seed_prefix_witness :
  Z.of_nat (length (get_leaderboard "roi_pct" 2 "7d")) = 2.
Proof.
  apply (leaderboard_is_a_seed_prefix "roi_pct" "7d" 2). lia.
Defined.

